(** * pytsetmc-api: ingestion and normalisation pipeline

    A shallow embedding of the date utilities, the retrying transport, the
    price-history parser, the intraday fan-out and the index join of
    [pytsetmc_api], together with the properties its specification states
    about them.

    Conventions.
    - Python [str] values are Rocq [string]s; a character is one 8-bit code
      point, so text outside Latin-1 is not represented.
    - Python [int] is [Z]; a Python [float] is a [pyfloat], a binary64 value
      kept as sign, integral significand and binary exponent.
    - A call that may raise returns [result A = exn + A]; code that talks to
      the network threads a [World] explicitly. *)

From Stdlib Require Import ZArith List String Ascii Bool Lia QArith DecimalString.
Import ListNotations.
Local Open Scope string_scope.
Local Open Scope Z_scope.

Set Implicit Arguments.

(** ** Exceptions

    The package's hierarchy ([exceptions.py]) and the built-in exceptions
    the modelled code can meet, as one tagged type.  Every constructor
    carries the fields of the corresponding class that the code fills. *)

Inductive exn : Type :=
| TSETMCValidationError (message : string) (field_name field_value : option string)
| TSETMCAPIError (message : string) (status_code : option Z)
| TSETMCNetworkError (message : string)
| TSETMCRateLimitError (message : string) (retry_after : option Z) (limit_type : option string)
| TSETMCDataError (message : string)
| ValueError (message : string)
| OverflowError (message : string)
| KeyError (message : string)
| TypeError (message : string).

Definition result (A : Type) : Type := (exn + A)%type.

Definition raise {A : Type} (e : exn) : result A := inl e.
Definition ret {A : Type} (a : A) : result A := inr a.

Definition bind {A B : Type} (c : result A) (k : A -> result B) : result B :=
  match c with
  | inl e => inl e
  | inr a => k a
  end.

Declare Scope result_scope.
Delimit Scope result_scope with result.
Notation "x <- c ;; k" := (bind c (fun x => k))
  (at level 61, c at next level, right associativity) : result_scope.
Notation "' pat <- c ;; k" := (bind c (fun x => match x with pat => k end))
  (at level 61, pat pattern, c at next level, right associativity) : result_scope.

(** [isinstance(e, TSETMCError)]: the five classes of the package. *)
Definition is_TSETMCError (e : exn) : bool :=
  match e with
  | TSETMCValidationError _ _ _ | TSETMCAPIError _ _ | TSETMCNetworkError _
  | TSETMCRateLimitError _ _ _ | TSETMCDataError _ => true
  | _ => false
  end.

Definition is_ValidationError (e : exn) : bool :=
  match e with TSETMCValidationError _ _ _ => true | _ => false end.

Definition is_DataError (e : exn) : bool :=
  match e with TSETMCDataError _ => true | _ => false end.

Definition is_RateLimitError (e : exn) : bool :=
  match e with TSETMCRateLimitError _ _ _ => true | _ => false end.

Definition is_APIError (e : exn) : bool :=
  match e with TSETMCAPIError _ _ => true | _ => false end.

Definition is_NetworkError (e : exn) : bool :=
  match e with TSETMCNetworkError _ => true | _ => false end.

(** ** Python built-ins used by the package *)

Module Py.

(** *** Characters and strings *)

Definition ord (c : ascii) : Z := Z.of_nat (nat_of_ascii c).

(** [str.isspace] on one character (Latin-1 range). *)
Definition is_space (c : ascii) : bool :=
  let n := ord c in
  ((9 <=? n) && (n <=? 13)) || ((28 <=? n) && (n <=? 32))
  || (n =? 133) || (n =? 160).

Definition is_digit (c : ascii) : bool :=
  let n := ord c in (48 <=? n) && (n <=? 57).

Definition digit_val (c : ascii) : Z := ord c - 48.

Fixpoint lstrip (s : string) : string :=
  match s with
  | EmptyString => EmptyString
  | String c s' => if is_space c then lstrip s' else s
  end.

Fixpoint rev_onto (s acc : string) : string :=
  match s with
  | EmptyString => acc
  | String c s' => rev_onto s' (String c acc)
  end.

Definition reverse (s : string) : string := rev_onto s EmptyString.

Definition rstrip (s : string) : string := reverse (lstrip (reverse s)).

(** [s.strip()] *)
Definition strip (s : string) : string := rstrip (lstrip s).

(** [s.split(sep)] for a one-character separator: never empty. *)
Fixpoint split (sep : ascii) (s : string) : list string :=
  match s with
  | EmptyString => [EmptyString]
  | String c s' =>
      if Ascii.eqb c sep then EmptyString :: split sep s'
      else match split sep s' with
           | [] => [String c EmptyString]
           | p :: ps => String c p :: ps
           end
  end.

Fixpoint map_chars (f : ascii -> ascii) (s : string) : string :=
  match s with
  | EmptyString => EmptyString
  | String c s' => String (f c) (map_chars f s')
  end.

(** [s.lower()] (ASCII letters). *)
Definition lower_char (c : ascii) : ascii :=
  let n := ord c in
  if (65 <=? n) && (n <=? 90) then ascii_of_nat (Z.to_nat (n + 32)) else c.

Definition lower (s : string) : string := map_chars lower_char s.

(** [sub in s] *)
Fixpoint contains (sub s : string) : bool :=
  if prefix sub s then true
  else match s with
       | EmptyString => false
       | String _ s' => contains sub s'
       end.

(** [s[i:j]] for [0 <= i <= j]. *)
Definition slice (s : string) (i j : nat) : string := substring i (j - i) s.

(** [s[i:]] *)
Fixpoint drop (n : nat) (s : string) : string :=
  match n, s with
  | O, _ => s
  | S n', String _ s' => drop n' s'
  | S _, EmptyString => EmptyString
  end.

(** [str(n)] for an [int]. *)
Definition str_of_int (n : Z) : string := NilZero.string_of_int (Z.to_int n).

Fixpoint repeat_char (c : ascii) (n : nat) : string :=
  match n with
  | O => EmptyString
  | S n' => String c (repeat_char c n')
  end.

(** [s.rjust(width, '0')], also pandas' [str.pad(width, 'left', '0')]. *)
Definition pad_left (width : nat) (c : ascii) (s : string) : string :=
  repeat_char c (width - String.length s) ++ s.

(** [f'{n:0wd}']: zero padding goes after the sign. *)
Definition format_0d (width : nat) (n : Z) : string :=
  if n <? 0
  then String "-" (pad_left (width - 1) "0" (str_of_int (- n)))
  else pad_left width "0" (str_of_int n).

(** *** [int(str)] *)

(** Digits with single underscores between them. *)
Fixpoint int_digits (s : string) (acc : Z) (after_digit : bool) : option Z :=
  match s with
  | EmptyString => if after_digit then Some acc else None
  | String c s' =>
      if is_digit c then int_digits s' (10 * acc + digit_val c) true
      else if Ascii.eqb c "_" && after_digit then int_digits s' acc false
      else None
  end.

Definition int_literal (s : string) : option Z :=
  match strip s with
  | String "+" r => int_digits r 0 false
  | String "-" r => option_map Z.opp (int_digits r 0 false)
  | t => int_digits t 0 false
  end.

Definition int (s : string) : result Z :=
  match int_literal s with
  | Some n => ret n
  | None => raise (ValueError ("invalid literal for int() with base 10: '" ++ s ++ "'"))
  end.

(** *** [float]

    A finite binary64 value is [m * 2^e] with its sign apart; [round64]
    yields the canonical pair, so equal floats are equal terms. *)

Inductive pyfloat : Type :=
| FFinite (neg : bool) (m e : Z)
| FInf (neg : bool)
| FNaN.

Definition round_half_even (n d : Z) : Z :=
  let q := n / d in
  let r := n mod d in
  if 2 * r <? d then q
  else if d <? 2 * r then q + 1
  else if Z.even q then q else q + 1.

(** Nearest binary64 to the positive rational [n / d]; [None] on overflow. *)
Definition round64 (n d : Z) : option (Z * Z) :=
  let e0 := Z.log2 n - Z.log2 d in
  let below :=
    if 0 <=? e0 then n <? d * 2 ^ e0 else n * 2 ^ (- e0) <? d in
  let e := if below then e0 - 1 else e0 in
  let q := Z.max e (-1022) - 52 in
  let m :=
    if 0 <=? q then round_half_even n (d * 2 ^ q)
    else round_half_even (n * 2 ^ (- q)) d in
  let '(m, q) := if m =? 2 ^ 53 then (2 ^ 52, q + 1) else (m, q) in
  if 972 <=? q then None
  else if m =? 0 then Some (0, 0)
  else Some (m, q).

(** The float nearest to [m * 10^e], [m >= 0]. *)
Definition float_of_decimal (neg : bool) (m e : Z) : pyfloat :=
  if m =? 0 then FFinite neg 0 0
  else
    match (if 0 <=? e then round64 (m * 10 ^ e) 1 else round64 m (10 ^ (- e))) with
    | Some (b, q) => FFinite neg b q
    | None => FInf neg
    end.

(** [float(n)] for an [int] below the overflow threshold. *)
Definition float_of_Z (n : Z) : pyfloat :=
  float_of_decimal (n <? 0) (Z.abs n) 0.

(** A run of digits with single underscores between digits: its value, the
    number of digits, and what follows. *)
Fixpoint take_digits (s : string) (acc : Z) (n : Z) (after_digit : bool)
  : Z * Z * string :=
  match s with
  | EmptyString => (acc, n, s)
  | String c s' =>
      if is_digit c then take_digits s' (10 * acc + digit_val c) (n + 1) true
      else if Ascii.eqb c "_" && after_digit
              && match s' with String c' _ => is_digit c' | _ => false end
      then take_digits s' acc n false
      else (acc, n, s)
  end.

Definition exponent_part (s : string) : option Z :=
  match s with
  | EmptyString => Some 0
  | String c r =>
      if Ascii.eqb c "e" || Ascii.eqb c "E" then
        let '(neg, r) :=
          match r with
          | String "+" r' => (false, r')
          | String "-" r' => (true, r')
          | _ => (false, r)
          end in
        match take_digits r 0 0 false with
        | (v, n, EmptyString) =>
            if n =? 0 then None else Some (if neg then - v else v)
        | _ => None
        end
      else None
  end.

Definition float_unsigned (neg : bool) (s : string) : option pyfloat :=
  let l := lower s in
  if String.eqb l "inf" || String.eqb l "infinity" then Some (FInf neg)
  else if String.eqb l "nan" then Some FNaN
  else
    let '(ip, ni, r) := take_digits s 0 0 false in
    let '(fp, nf, r) :=
      match r with
      | String "." r' => take_digits r' 0 0 false
      | _ => (0, 0, r)
      end in
    if (ni =? 0) && (nf =? 0) then None
    else
      match exponent_part r with
      | Some ex => Some (float_of_decimal neg (ip * 10 ^ nf + fp) (ex - nf))
      | None => None
      end.

Definition float_literal (s : string) : option pyfloat :=
  match strip s with
  | String "+" r => float_unsigned false r
  | String "-" r => float_unsigned true r
  | t => float_unsigned false t
  end.

Definition float (s : string) : result pyfloat :=
  match float_literal s with
  | Some x => ret x
  | None => raise (ValueError ("could not convert string to float: '" ++ s ++ "'"))
  end.

(** [int(x)] for a float: truncation; infinities and NaN raise. *)
Definition int_of_float (x : pyfloat) : result Z :=
  match x with
  | FFinite neg m e =>
      let a := if 0 <=? e then m * 2 ^ e else m / 2 ^ (- e) in
      ret (if neg then - a else a)
  | FInf _ => raise (OverflowError "cannot convert float infinity to integer")
  | FNaN => raise (ValueError "cannot convert float NaN to integer")
  end.

(** *** Lists *)

(** [l[i:j]] for [0 <= i]. *)
Definition slice_list {A : Type} (l : list A) (i j : nat) : list A :=
  firstn (j - i) (skipn i l).

(** [range(0, stop, step)] for [step > 0]. *)
Definition range_step (stop step : nat) : list nat :=
  map (fun q => (q * step)%nat) (seq 0 ((stop + step - 1) / step)).

(** Lexicographic [a > b] on lists of ints. *)
Fixpoint list_gt (a b : list Z) : bool :=
  match a, b with
  | [], _ => false
  | _ :: _, [] => true
  | x :: a', y :: b' =>
      if y <? x then true else if x <? y then false else list_gt a' b'
  end.

(** Code-point order on strings: [a <= b]. *)
Fixpoint str_le (a b : string) : bool :=
  match a, b with
  | EmptyString, _ => true
  | String _ _, EmptyString => false
  | String x a', String y b' =>
      if ord x <? ord y then true
      else if ord y <? ord x then false
      else str_le a' b'
  end.

End Py.

(** ** Calendars

    [datetime.date] of the Python standard library and the [jdatetime]
    package, which the functions of [utils.py] wrap. *)

Module Datetime.

Record date : Type := mkdate { year : Z; month : Z; day : Z }.

Definition is_leap (y : Z) : bool :=
  (y mod 4 =? 0) && (negb (y mod 100 =? 0) || (y mod 400 =? 0)).

Definition days_in_month (y m : Z) : Z :=
  if m =? 2 then (if is_leap y then 29 else 28)
  else if (m =? 4) || (m =? 6) || (m =? 9) || (m =? 11) then 30
  else 31.

(** [datetime.date(year, month, day)] *)
Definition new (y m d : Z) : result date :=
  if (y <? 1) || (9999 <? y) then raise (ValueError "year is out of range")
  else if (m <? 1) || (12 <? m) then raise (ValueError "month must be in 1..12")
  else if (d <? 1) || (days_in_month y m <? d)
  then raise (ValueError "day is out of range for month")
  else ret (mkdate y m d).

(** [d.strftime('%Y%m%d')] *)
Definition strftime_Ymd (d : date) : string :=
  Py.format_0d 4 (year d) ++ Py.format_0d 2 (month d) ++ Py.format_0d 2 (day d).

Definition eqb (a b : date) : bool :=
  (year a =? year b) && (month a =? month b) && (day a =? day b).

(** [a <= b] *)
Definition leb (a b : date) : bool :=
  negb (Py.list_gt [year a; month a; day a] [year b; month b; day b]).

End Datetime.

(** Modelled from the spec: the [jdatetime] package, a dependency whose
    source is not in the repository.  The specification asks of it a total
    conversion for the valid dates of the years 1300 to 1450, exact both
    ways, with 1403-01-01 on 2024-03-20; the definitions below follow the
    package's arithmetic (the 33-year cycle of leap years and the day
    count from 1 Farvardin 979 and 1 January 1600). *)
Module Jdatetime.

Definition MINYEAR : Z := 1.
Definition MAXYEAR : Z := 9377.

Definition j_days_in_month : list Z := [31; 31; 31; 31; 31; 31; 30; 30; 30; 30; 30; 29].
Definition g_days_in_month : list Z := [31; 28; 31; 30; 31; 30; 31; 31; 30; 31; 30; 31].

Record date : Type := mkdate { year : Z; month : Z; day : Z }.

(** [date.isleap()]: the 33-year cycle. *)
Definition isleap (y : Z) : bool :=
  existsb (Z.eqb (y mod 33)) [1; 5; 9; 13; 17; 22; 26; 30].

(** [jdatetime.date(year, month, day)] *)
Definition new (y m d : Z) : result date :=
  if (y <? MINYEAR) || (MAXYEAR <? y) then raise (ValueError "year is out of range")
  else if (m <? 1) || (12 <? m) then raise (ValueError "month must be in 1..12")
  else if d <? 1 then raise (ValueError "day is out of range for month")
  else if (m =? 12) && (d =? 30) && isleap y then ret (mkdate y m d)
  else if (m =? 12) && (d =? 30) && negb (isleap y)
  then raise (ValueError "day is out of range for month")
  else if nth (Z.to_nat (m - 1)) j_days_in_month 0 <? d
  then raise (ValueError "day is out of range for month")
  else ret (mkdate y m d).

Definition sum_list (l : list Z) : Z := fold_left Z.add l 0.

(** The month loop of both conversions: walk the month lengths while the
    day number still covers the whole month. *)
Fixpoint walk_months (lens : list Z) (i day_no : Z) : Z * Z :=
  match lens with
  | [] => (i, day_no)
  | len :: rest =>
      if len <=? day_no then walk_months rest (i + 1) (day_no - len)
      else (i, day_no)
  end.

(** [JalaliToGregorian(jyear, jmonth, jday).getGregorianList()] *)
Definition jalali_to_gregorian (jyear jmonth jday : Z) : Z * Z * Z :=
  let jy := jyear - 979 in
  let jm := jmonth - 1 in
  let jd := jday - 1 in
  let j_day_no := 365 * jy + (jy / 33) * 8 + (jy mod 33 + 3) / 4 in
  let j_day_no := j_day_no + sum_list (firstn (Z.to_nat jm) j_days_in_month) in
  let j_day_no := j_day_no + jd in
  let g_day_no := j_day_no + 79 in
  let gy := 1600 + 400 * (g_day_no / 146097) in
  let g_day_no := g_day_no mod 146097 in
  let '(gy, g_day_no, leap) :=
    if 36525 <=? g_day_no then
      let g_day_no := g_day_no - 1 in
      let gy := gy + 100 * (g_day_no / 36524) in
      let g_day_no := g_day_no mod 36524 in
      if 365 <=? g_day_no then (gy, g_day_no + 1, 1) else (gy, g_day_no, 0)
    else (gy, g_day_no, 1) in
  let gy := gy + 4 * (g_day_no / 1461) in
  let g_day_no := g_day_no mod 1461 in
  let '(gy, g_day_no, leap) :=
    if 366 <=? g_day_no then
      let g_day_no := g_day_no - 1 in
      (gy + g_day_no / 365, g_day_no mod 365, 0)
    else (gy, g_day_no, leap) in
  let lens :=
    match g_days_in_month with
    | jan :: feb :: rest => jan :: (feb + leap) :: rest
    | l => l
    end in
  let '(i, g_day_no) := walk_months lens 0 g_day_no in
  (gy, i + 1, g_day_no + 1).

(** [GregorianToJalali(gyear, gmonth, gday).getJalaliList()] *)
Definition gregorian_to_jalali (gyear gmonth gday : Z) : Z * Z * Z :=
  let gy := gyear - 1600 in
  let gm := gmonth - 1 in
  let gd := gday - 1 in
  let g_day_no := 365 * gy + (gy + 3) / 4 - (gy + 99) / 100 + (gy + 399) / 400 in
  let g_day_no := g_day_no + sum_list (firstn (Z.to_nat gm) g_days_in_month) in
  let g_day_no :=
    if (1 <? gm) && (((gy mod 4 =? 0) && negb (gy mod 100 =? 0)) || (gy mod 400 =? 0))
    then g_day_no + 1 else g_day_no in
  let g_day_no := g_day_no + gd in
  let j_day_no := g_day_no - 79 in
  let j_np := j_day_no / 12053 in
  let j_day_no := j_day_no mod 12053 in
  let jy := 979 + 33 * j_np + 4 * (j_day_no / 1461) in
  let j_day_no := j_day_no mod 1461 in
  let '(jy, j_day_no) :=
    if 366 <=? j_day_no
    then (jy + (j_day_no - 1) / 365, (j_day_no - 1) mod 365)
    else (jy, j_day_no) in
  let '(i, j_day_no) := walk_months (firstn 11 j_days_in_month) 0 j_day_no in
  (jy, i + 1, j_day_no + 1).

(** [d.togregorian()] *)
Definition togregorian (d : date) : result Datetime.date :=
  let '(y, m, dd) := jalali_to_gregorian (year d) (month d) (day d) in
  Datetime.new y m dd.

(** [jdatetime.date.fromgregorian(date=g)] *)
Definition fromgregorian (g : Datetime.date) : result date :=
  let '(y, m, d) :=
    gregorian_to_jalali (Datetime.year g) (Datetime.month g) (Datetime.day g) in
  new y m d.

(** [d.strftime('%Y-%m-%d')], which is also [str(d)]. *)
Definition strftime_Y_m_d (d : date) : string :=
  Py.str_of_int (year d) ++ "-" ++ Py.format_0d 2 (month d) ++ "-"
  ++ Py.format_0d 2 (day d).

Definition all_digits (s : string) : bool :=
  forallb Py.is_digit (list_ascii_of_string s).

(** [jdatetime.datetime.strptime(s, '%Y-%m-%d')]: four digits, then one or
    two digits twice, separated by hyphens; the date part of the result. *)
Definition strptime_Y_m_d (s : string) : result date :=
  let bad := ValueError ("time data '" ++ s ++ "' does not match format '%Y-%m-%d'") in
  match Py.split "-" s with
  | [ys; ms; ds] =>
      let short t := (1 <=? String.length t)%nat && (String.length t <=? 2)%nat in
      if all_digits ys && (String.length ys =? 4)%nat
         && all_digits ms && short ms && all_digits ds && short ds
      then
        match Py.int_literal ys, Py.int_literal ms, Py.int_literal ds with
        | Some y, Some m, Some d => new y m d
        | _, _, _ => raise bad
        end
      else raise bad
  | _ => raise bad
  end.

End Jdatetime.

(** ** The environment

    What the package does not own: the upstream's answers and the sleeps it
    asks the operating system for.  [network w k url] is what the [k]-th
    [session.request] of the process gets when it asks for [url]; the wall
    clock is not represented, so [_rate_limit], which only delays, has no
    counterpart. *)

Record trade_json : Type := mk_trade_json {
  hEven : Z;
  qTitTran : option Z;
  pTran : option Z;
  nTran : Z
}.

Record index_json : Type := mk_index_json {
  dEven : Z;
  xNivInuClMresIbs : option Py.pyfloat
}.

(** The documents [response.json()] yields on the modelled endpoints.  For
    a trade document, [tradeHistory] is [None] when the key is missing or
    its value is falsy; otherwise it gives the number of columns of the
    frame pandas builds from the elements and, per element, the cells of
    columns 2 to 5 (a cell that [pd.to_numeric] cannot read is [None]).
    For an index document, [indexB2] is [None] when the key is missing. *)
Inductive json_doc : Type :=
| TradeDoc (tradeHistory : option (nat * list trade_json))
| IndexDoc (indexB2 : option (list index_json)).

Record response : Type := mk_response {
  status_code : Z;
  ok : bool;
  reason : string;
  text : string;
  json : option json_doc
}.

(** What [session.request] does: a response, or one of the exceptions of
    [requests] ([RequestException] stands for any other subclass). *)
Inductive http_outcome : Type :=
| Responded (r : response)
| Timeout
| ConnectionError (msg : string)
| RequestException (msg : string).

Record World : Type := mk_World {
  network : nat -> string -> http_outcome;
  calls : nat;
  slept : list Q
}.

(** [time.sleep(seconds)] *)
Definition sleep (seconds : Q) (w : World) : World :=
  mk_World (network w) (calls w) (slept w ++ [seconds]).

(** [session.request(url=url, ...)] *)
Definition session_request (url : string) (w : World) : http_outcome * World :=
  (network w (calls w) url, mk_World (network w) (S (calls w)) (slept w)).

(** ** utils.py *)

(** [str(e)] for the exception classes whose text the package inspects. *)
Definition str_exn (e : exn) : string :=
  match e with
  | TSETMCValidationError message field_name field_value =>
      message ++
      match field_name with
      | Some f =>
          " (Field: " ++ f ++
          match field_value with
          | Some v => ", Value: " ++ v
          | None => ""
          end ++ ")"
      | None => ""
      end
  | TSETMCAPIError message status_code =>
      message ++
      match status_code with
      | Some c => if c =? 0 then "" else " (Status: " ++ Py.str_of_int c ++ ")"
      | None => ""
      end
  | TSETMCRateLimitError message retry_after limit_type =>
      message ++
      match retry_after with
      | Some n => if n =? 0 then "" else " (Retry after: " ++ Py.str_of_int n ++ "s)"
      | None => ""
      end ++
      match limit_type with
      | Some t => if String.eqb t "" then "" else " (Limit type: " ++ t ++ ")"
      | None => ""
      end
  | TSETMCNetworkError message | TSETMCDataError message => message
  | ValueError message | OverflowError message | KeyError message
  | TypeError message => message
  end.

Definition format_jalali (y m d : Z) : string :=
  Py.format_0d 4 y ++ "-" ++ Py.format_0d 2 m ++ "-" ++ Py.format_0d 2 d.

(** [re.sub(r'[/.]', '-', s)] *)
Definition hyphenate (s : string) : string :=
  Py.map_chars (fun c => if Ascii.eqb c "/" || Ascii.eqb c "." then "-"%char else c) s.

Definition validate_jalali_date_field (date_string field_name : string) : result string :=
  if String.eqb date_string "" then
    raise (TSETMCValidationError
             ("Invalid " ++ field_name ++ ": date string cannot be empty")
             (Some field_name) (Some date_string))
  else
    let date_string := Py.strip date_string in
    let date_string := hyphenate date_string in
    let parts := Py.split "-" date_string in
    match parts with
    | [ys; ms; ds] =>
        let body : result string :=
          (year <- Py.int ys ;;
           month <- Py.int ms ;;
           day <- Py.int ds ;;
           if (year <? 1300) || (1450 <? year) then
             raise (TSETMCValidationError
                      ("Invalid " ++ field_name ++ ": year " ++ Py.str_of_int year
                       ++ " is out of reasonable range")
                      (Some field_name) (Some date_string))
           else
             jalali_date <- Jdatetime.new year month day ;;
             ret (format_jalali (Jdatetime.year jalali_date)
                    (Jdatetime.month jalali_date) (Jdatetime.day jalali_date)))%result in
        match body with
        | inl (ValueError msg) =>
            raise (TSETMCValidationError
                     ("Invalid " ++ field_name ++ ": " ++ msg)
                     (Some field_name) (Some date_string))
        | r => r
        end
    | _ =>
        raise (TSETMCValidationError
                 ("Invalid " ++ field_name ++ ": expected format YYYY-MM-DD, got "
                  ++ date_string)
                 (Some field_name) (Some date_string))
    end.

(** [validate_jalali_date(date_string)] with the default [field_name]. *)
Definition validate_jalali_date (date_string : string) : result string :=
  validate_jalali_date_field date_string "date".

Fixpoint map_result {A B : Type} (f : A -> result B) (l : list A) : result (list B) :=
  match l with
  | [] => ret []
  | x :: l' => (y <- f x ;; ys <- map_result f l' ;; ret (y :: ys))%result
  end.

Definition convert_jalali_to_gregorian (jalali_date_string : string)
  : result Datetime.date :=
  (normalized_date <- validate_jalali_date jalali_date_string ;;
   parts <- map_result Py.int (Py.split "-" normalized_date) ;;
   match parts with
   | [year; month; day] =>
       match (jalali_date <- Jdatetime.new year month day ;;
              Jdatetime.togregorian jalali_date) with
       | inl e =>
           raise (TSETMCValidationError
                    ("Failed to convert Jalali date to Gregorian: " ++ str_exn e)
                    (Some "jalali_date") (Some jalali_date_string))
       | inr gregorian_date => ret gregorian_date
       end
   | _ => raise (ValueError "not enough values to unpack (expected 3)")
   end)%result.

Definition convert_gregorian_to_jalali (gregorian_date : Datetime.date) : result string :=
  (jalali_date <- Jdatetime.fromgregorian gregorian_date ;;
   ret (format_jalali (Jdatetime.year jalali_date) (Jdatetime.month jalali_date)
          (Jdatetime.day jalali_date)))%result.

Definition safe_float_conversion (value : string) : option Py.pyfloat :=
  if String.eqb value "" || String.eqb value "N/A" then None
  else
    match Py.float value with
    | inr x => Some x
    | inl _ => None
    end.

(** Only [ValueError] and [TypeError] are caught: the [OverflowError] of
    [int(float('inf'))] leaves the function. *)
Definition safe_int_conversion (value : string) : result (option Z) :=
  if String.eqb value "" || String.eqb value "N/A" then ret None
  else
    match (float_value <- Py.float value ;; Py.int_of_float float_value)%result with
    | inr n => ret (Some n)
    | inl (ValueError _) | inl (TypeError _) => ret None
    | inl e => raise e
    end.

Definition chunk_list {A : Type} (data : list A) (chunk_size : Z) : result (list (list A)) :=
  if chunk_size <=? 0 then raise (ValueError "Chunk size must be positive")
  else
    let k := Z.to_nat chunk_size in
    ret (map (fun i => Py.slice_list data i (i + k))
           (Py.range_step (List.length data) k)).

Section Retry.

Context {A : Type}.
Variable max_retries : Z.
Variable delay backoff_factor : Q.
Variable exceptions : exn -> bool.
Variable func : World -> result A * World.

(** The [for attempt in range(max_retries + 1)] loop of [wrapper], with
    [n] iterations left. *)
Fixpoint retry_loop (n : nat) (attempt : Z) (current_delay : Q)
         (last_exception : option exn) (w : World) : result A * World :=
  match n with
  | O =>
      match last_exception with
      | Some e => (raise e, w)
      | None => (raise (TypeError "exceptions must derive from BaseException"), w)
      end
  | S n' =>
      match func w with
      | (inr v, w1) => (ret v, w1)
      | (inl e, w1) =>
          if exceptions e then
            if attempt =? max_retries then (raise e, w1)
            else retry_loop n' (attempt + 1) (current_delay * backoff_factor)%Q
                   (Some e) (sleep current_delay w1)
          else (raise e, w1)
      end
  end.

Definition retry_on_failure (w : World) : result A * World :=
  retry_loop (Z.to_nat (max_retries + 1)) 0 delay None w.

End Retry.

(** ** services/base_service.py *)

(** The function that [@retry_on_failure] wraps: one attempt. *)
Definition _make_request_wrapped (timeout : Z) (url : string) (w : World)
  : result response * World :=
  let '(outcome, w) := session_request url w in
  match outcome with
  | Responded r =>
      if status_code r =? 429 then
        (raise (TSETMCRateLimitError "Rate limit exceeded" None None), w)
      else if negb (ok r) then
        (raise (TSETMCAPIError
                  ("HTTP " ++ Py.str_of_int (status_code r) ++ ": " ++ reason r)
                  (Some (status_code r))), w)
      else (ret r, w)
  | Timeout =>
      (raise (TSETMCNetworkError
                ("Request timeout after " ++ Py.str_of_int timeout ++ " seconds")), w)
  | ConnectionError msg =>
      (raise (TSETMCNetworkError ("Connection error: " ++ msg)), w)
  | RequestException msg =>
      (raise (TSETMCNetworkError ("Request error: " ++ msg)), w)
  end.

(** The default [timeout] of [BaseService.__init__]. *)
Definition default_timeout : Z := 30.

(** [@retry_on_failure(max_retries=3)]: default delay, factor and
    exception tuple [(Exception,)], which every exception matches. *)
Definition _make_request (url : string) (w : World) : result response * World :=
  retry_on_failure 3 1 2 (fun _ => true) (_make_request_wrapped default_timeout url) w.

Definition _validate_date_range (start_date end_date : string) : result unit :=
  match (normalized_start <- validate_jalali_date start_date ;;
         normalized_end <- validate_jalali_date end_date ;;
         ret (normalized_start, normalized_end))%result with
  | inl (TSETMCValidationError _ _ _ as e) =>
      if negb (Py.contains "start" (Py.lower (str_exn e))) then
        if Py.contains start_date (str_exn e)
        then raise (TSETMCValidationError
                      ("Invalid start date format: " ++ start_date) None None)
        else raise (TSETMCValidationError
                      ("Invalid end date format: " ++ end_date) None None)
      else raise e
  | inl e => raise e
  | inr (normalized_start, normalized_end) =>
      (start_parts <- map_result Py.int (Py.split "-" normalized_start) ;;
       end_parts <- map_result Py.int (Py.split "-" normalized_end) ;;
       if Py.list_gt start_parts end_parts
       then raise (TSETMCValidationError "Start date must be before end date" None None)
       else ret tt)%result
  end.

Definition _validate_stock_name (stock : string) : result unit :=
  if String.eqb stock "" then
    raise (TSETMCValidationError "Stock name must be a non-empty string" None None)
  else if (String.length (Py.strip stock) =? 0)%nat then
    raise (TSETMCValidationError "Stock name cannot be empty" None None)
  else ret tt.

(** Stable insertion sort, standing for pandas' [sort_values] (which leaves
    the relative order of equal keys unspecified). *)
Section Sorting.

Context {A : Type}.
Variable le : A -> A -> bool.

Fixpoint insert_sorted (x : A) (l : list A) : list A :=
  match l with
  | [] => [x]
  | y :: l' => if le x y then x :: l else y :: insert_sorted x l'
  end.

Definition sort_values (l : list A) : list A :=
  fold_right insert_sorted [] l.

End Sorting.

(** ** services/price_service.py *)

Module Price.

Record record : Type := mk_record {
  Date : string;
  Open : option Py.pyfloat;
  High : option Py.pyfloat;
  Low : option Py.pyfloat;
  Close : option Py.pyfloat;
  Last : option Py.pyfloat;
  Count : option Z;
  Volume : option Z;
  Value : option Z
}.

(** A frame built from a list of dicts: one row per dict, a missing value
    where the dict holds [None]. *)
Definition DataFrame : Type := list record.

End Price.

Definition LF : ascii := "010"%char.

(** What the body of the [for line in lines] loop does with one line. *)
Inductive line_outcome : Type :=
| Skipped
| Appended (r : Price.record)
| Escaped (e : exn).

Definition field (parts : list string) (i : nat) : string := nth i parts "".

Definition parse_price_line (line : string) : line_outcome :=
  if String.eqb (Py.strip line) "" then Skipped
  else
    let parts := Py.split "," line in
    if (9 <=? List.length parts)%nat then
      let date_str := field parts 0 in
      if (String.length date_str =? 8)%nat then
        let attempt : result Price.record :=
          (year <- Py.int (Py.slice date_str 0 4) ;;
           month <- Py.int (Py.slice date_str 4 6) ;;
           day <- Py.int (Py.slice date_str 6 8) ;;
           jalali_date <- Jdatetime.new year month day ;;
           count <- safe_int_conversion (field parts 5) ;;
           volume <- safe_int_conversion (field parts 6) ;;
           value <- safe_int_conversion (field parts 7) ;;
           ret (Price.mk_record
                  (Jdatetime.strftime_Y_m_d jalali_date)
                  (safe_float_conversion (field parts 8))
                  (safe_float_conversion (field parts 1))
                  (safe_float_conversion (field parts 2))
                  (safe_float_conversion (field parts 3))
                  (safe_float_conversion (field parts 4))
                  count volume value))%result in
        match attempt with
        | inr r => Appended r
        | inl (ValueError _) => Skipped
        | inl e => Escaped e
        end
      else Skipped
    else Skipped.

(** The loop; [None] when an exception leaves it. *)
Fixpoint parse_price_lines (lines : list string) : option Price.DataFrame :=
  match lines with
  | [] => Some []
  | line :: rest =>
      match parse_price_line line with
      | Skipped => parse_price_lines rest
      | Appended r => option_map (cons r) (parse_price_lines rest)
      | Escaped _ => None
      end
  end.

Definition _parse_price_response (response_text : string) : Price.DataFrame :=
  match parse_price_lines (Py.split LF (Py.strip response_text)) with
  | Some price_records => price_records
  | None => []
  end.

(** [except Exception as e] at the end of the public methods: package
    errors pass, anything else becomes a [TSETMCAPIError]. *)
Definition reraise_as_api_error {A : Type} (message : string) (r : result A) : result A :=
  match r with
  | inl e => if is_TSETMCError e then raise e else raise (TSETMCAPIError message None)
  | inr a => ret a
  end.

(** [PriceService.get_history]: the validation at its head, then the
    [try] block ([body]: instrument lookup, fetch, filter, format), which
    is where the network is first used. *)
Definition get_history {DF : Type} (body : World -> result DF * World)
           (stock start_date end_date : string) (ignore_date : bool) (w : World)
  : result DF * World :=
  match _validate_stock_name stock with
  | inl e => (raise e, w)
  | inr _ =>
      match (if negb ignore_date then _validate_date_range start_date end_date
             else ret tt) with
      | inl e => (raise e, w)
      | inr _ =>
          let '(r, w) := body w in
          (match r with
           | inl e =>
               if is_TSETMCError e then raise e
               else raise (TSETMCAPIError
                             ("Failed to get price history for '" ++ stock ++ "': "
                              ++ str_exn e) None)
           | inr df => ret df
           end, w)
      end
  end.

(** ** services/trading_service.py *)

Module Trades.

Record row : Type := mk_row {
  J_Date : string;
  Time : string;
  Volume : Z;
  Price : Z
}.

Definition DataFrame : Type := list row.

End Trades.

(** [BaseService._clean_dataframe] on a frame of trades.  Its two object
    columns hold texts with a hyphen or a colon inside, which no numeric
    conversion accepts, so they stay; no cell is missing after [dropna()],
    so no row and no column is removed. *)
Definition _clean_dataframe_trades (df : Trades.DataFrame) : Trades.DataFrame := df.

(** The alternatives of [%m] and [%d] in [datetime.strptime], in the order
    the regular expression tries them: the value read and what is left. *)
Definition two (a b : ascii) : Z := 10 * Py.digit_val a + Py.digit_val b.

Definition month_alternatives (s : string) : list (Z * string) :=
  match s with
  | String a r =>
      match r with
      | String b r' =>
          (if Ascii.eqb a "1" && Py.is_digit b && (Py.digit_val b <=? 2)
           then [(two a b, r')] else [])
          ++ (if Ascii.eqb a "0" && Py.is_digit b && (1 <=? Py.digit_val b)
              then [(two a b, r')] else [])
      | EmptyString => []
      end
      ++ (if Py.is_digit a && (1 <=? Py.digit_val a) then [(Py.digit_val a, r)] else [])
  | EmptyString => []
  end.

Definition day_alternatives (s : string) : list (Z * string) :=
  match s with
  | String a r =>
      match r with
      | String b r' =>
          (if Ascii.eqb a "3" && Py.is_digit b && (Py.digit_val b <=? 1)
           then [(two a b, r')] else [])
          ++ (if (Ascii.eqb a "1" || Ascii.eqb a "2") && Py.is_digit b
              then [(two a b, r')] else [])
          ++ (if Ascii.eqb a "0" && Py.is_digit b && (1 <=? Py.digit_val b)
              then [(two a b, r')] else [])
      | EmptyString => []
      end
      ++ (if Py.is_digit a && (1 <=? Py.digit_val a) then [(Py.digit_val a, r)] else [])
      ++ match r with
         | String b r' =>
             if Ascii.eqb a " " && Py.is_digit b && (1 <=? Py.digit_val b)
             then [(Py.digit_val b, r')] else []
         | EmptyString => []
         end
  | EmptyString => []
  end.

(** [datetime.strptime(s, '%Y%m%d').date()] *)
Definition strptime_Ymd (s : string) : result Datetime.date :=
  let bad := ValueError ("time data '" ++ s ++ "' does not match format '%Y%m%d'") in
  match s with
  | String y1 (String y2 (String y3 (String y4 r))) =>
      if forallb Py.is_digit [y1; y2; y3; y4] then
        let year := 100 * two y1 y2 + two y3 y4 in
        let found :=
          flat_map (fun '(m, r1) => map (fun '(d, r2) => (m, d, r2)) (day_alternatives r1))
                   (month_alternatives r) in
        match found with
        | (m, d, EmptyString) :: _ => Datetime.new year m d
        | (_, _, rest) :: _ => raise (ValueError ("unconverted data remains: " ++ rest))
        | [] => raise bad
        end
      else raise bad
  | _ => raise bad
  end.

Fixpoint trading_days_loop (items : list string) (start_date end_date : string)
  : result (list string) :=
  match items with
  | [] => ret []
  | item :: rest =>
      if String.eqb item "" then trading_days_loop rest start_date end_date
      else
        (let date_str := field (Py.split "@" item) 0 in
         greg_date <- strptime_Ymd date_str ;;
         jalali <- Jdatetime.fromgregorian greg_date ;;
         let jalali_date := Jdatetime.strftime_Y_m_d jalali in
         days <- trading_days_loop rest start_date end_date ;;
         ret (if Py.str_le start_date jalali_date && Py.str_le jalali_date end_date
              then jalali_date :: days else days))%result
  end.

Definition _get_trading_days (web_id start_date end_date : string) (w : World)
  : result (list string) * World :=
  let url := "http://old.tsetmc.com/tsev2/data/InstTradeHistory.aspx?i=" ++ web_id
             ++ "&Top=999999&A=0" in
  match _make_request url w with
  | (inl e, w) => (raise e, w)
  | (inr response, w) =>
      (trading_days_loop (Py.split ";" (text response)) start_date end_date, w)
  end.

Definition format_time (x : string) : string :=
  if (6 <=? String.length x)%nat
  then Py.slice x 0 2 ++ ":" ++ Py.slice x 2 4 ++ ":" ++ Py.drop 4 x
  else x.

(** The frame of one day from the elements of [tradeHistory]. *)
Definition day_frame (j_date : string) (elements : list trade_json) : Trades.DataFrame :=
  let sorted := sort_values (fun a b => nTran a <=? nTran b) elements in
  flat_map
    (fun t =>
       match qTitTran t, pTran t with
       | Some volume, Some price =>
           [Trades.mk_row j_date
              (format_time (Py.pad_left 6 "0" (Py.str_of_int (hEven t))))
              volume price]
       | _, _ => []
       end)
    sorted.

(** [_fetch_day_trades_sync]: every exception raised on the way ends in
    the empty frame. *)
Definition _fetch_day_trades_sync (web_id j_date : string) (w : World)
  : Trades.DataFrame * World :=
  match (jd <- Jdatetime.strptime_Y_m_d j_date ;; Jdatetime.togregorian jd)%result with
  | inl _ => ([], w)
  | inr g =>
      let g_date := Datetime.strftime_Ymd g in
      let url := "http://cdn.tsetmc.com/api/Trade/GetTradeHistory/" ++ web_id ++ "/"
                 ++ g_date ++ "/false" in
      match _make_request url w with
      | (inl _, w) => ([], w)
      | (inr response, w) =>
          match json response with
          | None => ([], w)
          | Some (IndexDoc _) => ([], w)
          | Some (TradeDoc None) => ([], w)
          | Some (TradeDoc (Some (ncols, elements))) =>
              match elements with
              | [] => ([], w)
              | _ :: _ =>
                  if (ncols <? 6)%nat then ([], w)
                  else (day_frame j_date elements, w)
              end
          end
      end
  end.

(** The [for i, day in enumerate(trading_days[:max_days])] loop. *)
Fixpoint fetch_days (web_id : string) (days : list string) (w : World)
  : list Trades.DataFrame * World :=
  match days with
  | [] => ([], w)
  | day :: rest =>
      let '(result, w) := _fetch_day_trades_sync web_id day w in
      let '(results, w) := fetch_days web_id rest w in
      (match result with
       | [] => results
       | _ :: _ => result :: results
       end, w)
  end.

(** [get_intraday_trades_history]; [get_web_id] is the instrument lookup
    of the stock service. *)
Definition get_intraday_trades_history
           (get_web_id : string -> World -> result string * World)
           (stock start_date end_date : string) (w : World)
  : result Trades.DataFrame * World :=
  match _validate_stock_name stock with
  | inl e => (raise e, w)
  | inr _ =>
  match _validate_date_range start_date end_date with
  | inl e => (raise e, w)
  | inr _ =>
      let message := "Could not retrieve intraday trades for " ++ stock ++ "." in
      match get_web_id stock w with
      | (inl e, w) => (reraise_as_api_error message (raise e), w)
      | (inr web_id, w) =>
      match _get_trading_days web_id start_date end_date w with
      | (inl e, w) => (reraise_as_api_error message (raise e), w)
      | (inr trading_days, w) =>
          match trading_days with
          | [] =>
              (raise (TSETMCDataError
                        ("No trading days found for " ++ stock
                         ++ " in the specified period.")), w)
          | _ :: _ =>
              let max_days := Nat.min (List.length trading_days) 5 in
              let '(results, w) := fetch_days web_id (firstn max_days trading_days) w in
              let df := List.concat results in
              match df with
              | [] => (raise (TSETMCDataError "No intraday trade data found."), w)
              | _ :: _ => (ret (_clean_dataframe_trades df), w)
              end
          end
      end
      end
  end
  end.

(** ** services/market_service.py *)

Module Index.

Record ohlc_row : Type := mk_ohlc_row {
  o_Date : Datetime.date;
  o_High : string;
  o_Low : string;
  o_Open : string;
  o_Close : string;
  o_Volume : string
}.

Record adj_row : Type := mk_adj_row {
  a_Date : Datetime.date;
  a_Adj_Close : option Py.pyfloat;
  a_J_Date : string
}.

Record ohlc_cells : Type := mk_ohlc_cells {
  Open : option Py.pyfloat;
  High : option Py.pyfloat;
  Low : option Py.pyfloat;
  Close : option Py.pyfloat;
  Volume : option Py.pyfloat
}.

(** A row of the result, indexed by [J_Date]; [ohlc] is [None] in the
    frame of adjusted closes alone; [Date] and [Weekday] are [None] when
    the column has been dropped. *)
Record row : Type := mk_row {
  J_Date : string;
  Date : option Datetime.date;
  Weekday : option string;
  ohlc : option ohlc_cells;
  Adj_Close : option Py.pyfloat
}.

Definition DataFrame : Type := list row.

End Index.

(** [IndexType] with [_INDEX_WEB_IDS]. *)
Definition _INDEX_WEB_IDS : list (string * string) :=
  [ ("CWI", "32097828799138957"); ("EWI", "67130298613737946");
    ("CWPI", "5798407779416661"); ("EWPI", "8384385859414435");
    ("FFI", "49579049405614711"); ("MKT1I", "62752761908615603");
    ("MKT2I", "71704845530629737"); ("INDI", "43754960038275285");
    ("LCI30", "10523825119011581"); ("ACT50", "46342955726788357") ].

Definition upper_char (c : ascii) : ascii :=
  let n := Py.ord c in
  if (97 <=? n) && (n <=? 122) then ascii_of_nat (Z.to_nat (n - 32)) else c.

Fixpoint assoc (k : string) (l : list (string * string)) : option string :=
  match l with
  | [] => None
  | (k', v) :: l' => if String.eqb k k' then Some v else assoc k l'
  end.

(** [d.day_name()] through the proleptic ordinal, as [date.weekday]. *)
Definition toordinal (d : Datetime.date) : Z :=
  let y := Datetime.year d - 1 in
  let before_month :=
    Jdatetime.sum_list
      (firstn (Z.to_nat (Datetime.month d - 1))
         (map (Datetime.days_in_month (Datetime.year d)) [1; 2; 3; 4; 5; 6; 7; 8; 9; 10; 11])) in
  y * 365 + y / 4 - y / 100 + y / 400 + before_month + Datetime.day d.

Definition day_name (d : Datetime.date) : string :=
  nth (Z.to_nat ((toordinal d + 6) mod 7))
      ["Monday"; "Tuesday"; "Wednesday"; "Thursday"; "Friday"; "Saturday"; "Sunday"] "".

(** [pd.merge(left, right, on='Date', how='inner')]: for every left row,
    in order, its pairs with the right rows of the same date. *)
Definition merge_inner (left : list Index.ohlc_row) (right : list Index.adj_row)
  : list (Index.ohlc_row * Index.adj_row) :=
  flat_map
    (fun l =>
       map (pair l)
           (filter (fun r => Datetime.eqb (Index.o_Date l) (Index.a_Date r)) right))
    left.

Section Pandas.

(** [pd.to_datetime] on one text and [pd.to_numeric(errors='coerce')] on
    one cell: pandas' own parsers, left open. *)
Variable to_datetime : string -> result Datetime.date.
Variable to_numeric : string -> option Py.pyfloat.

(** The adjusted-close frame, lines 103 to 108. *)
Definition adj_close_frame (indexB2 : list index_json) : result (list Index.adj_row) :=
  map_result
    (fun j =>
       let x := Py.str_of_int (dEven j) in
       (d <- to_datetime (Py.slice x 0 4 ++ "-" ++ Py.slice x 4 6 ++ "-" ++ Py.drop 6 x) ;;
        jd <- Jdatetime.fromgregorian d ;;
        ret (Index.mk_adj_row d (xNivInuClMresIbs j) (Jdatetime.strftime_Y_m_d jd)))%result)
    indexB2.

(** The OHLC frame, lines 117 to 120: seven columns are imposed on the
    split rows, shorter rows are padded and then dropped by [dropna()]. *)
Definition ohlc_frame (response_text : string) : result (list Index.ohlc_row) :=
  let ohlc_data := map (Py.split ",") (Py.split ";" response_text) in
  let widest := fold_right Nat.max 0%nat (map (@List.length string) ohlc_data) in
  if negb (widest =? 7)%nat then
    raise (ValueError ("7 columns passed, passed data had "
                       ++ Py.str_of_int (Z.of_nat widest) ++ " columns"))
  else
    map_result
      (fun r =>
         (d <- to_datetime (field r 0) ;;
          ret (Index.mk_ohlc_row d (field r 1) (field r 2) (field r 3) (field r 4)
                 (field r 5)))%result)
      (filter (fun r => (List.length r =? 7)%nat) ohlc_data).

(** Lines 122 to 125: the merge and the numeric coercion of its columns. *)
Definition joined_frame (df_ohlc : list Index.ohlc_row) (df_adj_close : list Index.adj_row)
  : list Index.row :=
  map (fun '(l, r) =>
         Index.mk_row (Index.a_J_Date r) (Some (Index.o_Date l)) None
           (Some (Index.mk_ohlc_cells
                    (to_numeric (Index.o_Open l)) (to_numeric (Index.o_High l))
                    (to_numeric (Index.o_Low l)) (to_numeric (Index.o_Close l))
                    (to_numeric (Index.o_Volume l))))
           (Index.a_Adj_Close r))
      (merge_inner df_ohlc df_adj_close).

Definition adj_only_frame (df_adj_close : list Index.adj_row) : list Index.row :=
  map (fun r =>
         Index.mk_row (Index.a_J_Date r) (Some (Index.a_Date r)) None None
           (Index.a_Adj_Close r))
      df_adj_close.

Definition row_date_le (a b : Index.row) : bool :=
  match Index.Date a, Index.Date b with
  | Some x, Some y => Datetime.leb x y
  | _, _ => true
  end.

(** Lines 136 to 141. *)
Definition format_row (show_weekday double_date : bool) (r : Index.row) : Index.row :=
  Index.mk_row (Index.J_Date r)
    (if double_date then Index.Date r else None)
    (if show_weekday then option_map day_name (Index.Date r) else None)
    (Index.ohlc r) (Index.Adj_Close r).

Definition all_missing (r : Index.row) : bool :=
  match Index.Date r, Index.Weekday r, Index.Adj_Close r with
  | None, None, None =>
      match Index.ohlc r with
      | None => true
      | Some c =>
          match Index.Open c, Index.High c, Index.Low c, Index.Close c, Index.Volume c with
          | None, None, None, None, None => true
          | _, _, _, _, _ => false
          end
      end
  | _, _, _ => false
  end.

(** [_clean_dataframe] on an index frame: its columns are numeric, dates
    or weekday names, so only the removal of rows without any value is
    visible on the rows (a column removed as empty holds [None] in every
    row). *)
Definition _clean_dataframe_index (df : Index.DataFrame) : Index.DataFrame :=
  filter (fun r => negb (all_missing r)) df.

(** The frames built inside the [try] block of [get_index_history] once
    both responses are there. *)
Definition index_frame (index_name : string)
           (just_adj_close ignore_date show_weekday double_date : bool)
           (start_date end_date : string)
           (df_adj_close : list Index.adj_row) (df_ohlc : result (list Index.ohlc_row))
  : result Index.DataFrame :=
  (result_df <-
     (if just_adj_close then ret (adj_only_frame df_adj_close)
      else (ohlc <- df_ohlc ;; ret (joined_frame ohlc df_adj_close))) ;;
   let result_df := sort_values row_date_le result_df in
   let result_df :=
     if negb ignore_date
     then filter (fun r => Py.str_le start_date (Index.J_Date r)
                           && Py.str_le (Index.J_Date r) end_date) result_df
     else result_df in
   match result_df with
   | [] =>
       raise (TSETMCDataError ("No data available for index '" ++ index_name
                               ++ "' in the specified period."))
   | _ :: _ =>
       ret (_clean_dataframe_index (map (format_row show_weekday double_date) result_df))
   end)%result.

Definition get_index_history
           (index_type start_date end_date : string)
           (ignore_date just_adj_close show_weekday double_date : bool) (w : World)
  : result Index.DataFrame * World :=
  match assoc (Py.map_chars upper_char index_type) _INDEX_WEB_IDS with
  | None =>
      (raise (TSETMCValidationError
                ("Invalid index_type '" ++ index_type ++ "'. Valid options are: ['"
                 ++ String.concat "', '" (map fst _INDEX_WEB_IDS) ++ "']")
                None None), w)
  | Some index_web_id =>
      match (if negb ignore_date then _validate_date_range start_date end_date
             else ret tt) with
      | inl e => (raise e, w)
      | inr _ =>
          let index_name := Py.map_chars upper_char index_type in
          let message := "Could not retrieve data for index '" ++ index_name ++ "'." in
          let adj_close_url :=
            "http://cdn.tsetmc.com/api/Index/GetIndexB2History/" ++ index_web_id in
          match _make_request adj_close_url w with
          | (inl e, w) => (reraise_as_api_error message (raise e), w)
          | (inr adj_close_response, w) =>
              let adj : result (list Index.adj_row) :=
                match json adj_close_response with
                | Some (IndexDoc (Some indexB2)) => adj_close_frame indexB2
                | Some _ => raise (KeyError "indexB2")
                | None => raise (ValueError "Expecting value")
                end in
              match adj with
              | inl e => (reraise_as_api_error message (raise e), w)
              | inr df_adj_close =>
                  if just_adj_close then
                    (reraise_as_api_error message
                       (index_frame index_name true ignore_date show_weekday double_date
                          start_date end_date df_adj_close (ret [])), w)
                  else
                    let ohlc_url :=
                      "http://old.tsetmc.com/tsev2/chart/data/IndexFinancial.aspx?i="
                      ++ index_web_id ++ "&t=ph" in
                    match _make_request ohlc_url w with
                    | (inl e, w) => (reraise_as_api_error message (raise e), w)
                    | (inr ohlc_response, w) =>
                        (reraise_as_api_error message
                           (index_frame index_name false ignore_date show_weekday double_date
                              start_date end_date df_adj_close
                              (ohlc_frame (text ohlc_response))), w)
                    end
              end
          end
      end
  end.

End Pandas.

(** ** Checkable statements

    Boolean forms of the properties below, and the finite enumeration of
    the Jalali dates that [validate_jalali_date] accepts. *)

Definition valid_jalali (y m d : Z) : bool :=
  match Jdatetime.new y m d with
  | inr _ => true
  | inl _ => false
  end.

(** There and back again through the two conversion functions. *)
Definition roundtrip_ok (y m d : Z) : bool :=
  match convert_jalali_to_gregorian (format_jalali y m d) with
  | inr g =>
      match convert_gregorian_to_jalali g with
      | inr s => String.eqb s (format_jalali y m d)
      | inl _ => false
      end
  | inl _ => false
  end.

(** The normalised text reads back as the three numbers it was made of. *)
Definition parts_ok (y m d : Z) : bool :=
  match map_result Py.int (Py.split "-" (format_jalali y m d)) with
  | inr [a; b; c] => (a =? y) && (b =? m) && (c =? d)
  | _ => false
  end.

Definition Z_range (lo : Z) (n : nat) : list Z :=
  map (fun i => lo + Z.of_nat i) (seq 0 n).

Definition check_dates (P : Z -> Z -> Z -> bool) : bool :=
  forallb
    (fun y =>
       forallb
         (fun m =>
            forallb (fun d => implb (valid_jalali y m d) (P y m d)) (Z_range 1 31))
         (Z_range 1 12))
    (Z_range 1300 151).

(** ** Statements and scenarios *)

(** [s] is accepted and normalises to the Jalali date [y]-[m]-[d]. *)
Definition normalizes_to (s : string) (y m d : Z) : Prop :=
  validate_jalali_date s = inr (format_jalali y m d)
  /\ 1300 <= y <= 1450 /\ valid_jalali y m d = true.

(** The first date is strictly after the second. *)
Definition date_after (y1 m1 d1 y2 m2 d2 : Z) : Prop :=
  y2 < y1 \/ (y2 = y1 /\ (m2 < m1 \/ (m2 = m1 /\ d2 < d1))).

(** What one attempt makes of what [session.request] did. *)
Definition attempt_result (timeout : Z) (o : http_outcome) : result response :=
  match o with
  | Responded r =>
      if status_code r =? 429 then
        raise (TSETMCRateLimitError "Rate limit exceeded" None None)
      else if negb (ok r) then
        raise (TSETMCAPIError
                 ("HTTP " ++ Py.str_of_int (status_code r) ++ ": " ++ reason r)
                 (Some (status_code r)))
      else ret r
  | Timeout =>
      raise (TSETMCNetworkError
               ("Request timeout after " ++ Py.str_of_int timeout ++ " seconds"))
  | ConnectionError msg => raise (TSETMCNetworkError ("Connection error: " ++ msg))
  | RequestException msg => raise (TSETMCNetworkError ("Request error: " ++ msg))
  end.

(** The world after [n] more requests and the given sleeps. *)
Definition after_attempts (w : World) (n : nat) (delays : list Q) : World :=
  mk_World (network w) (calls w + n) (slept w ++ delays).

(** The [retry_after] attribute of a rate-limit error. *)
Definition retry_hint (e : exn) : option Z :=
  match e with
  | TSETMCRateLimitError _ retry_after _ => retry_after
  | _ => None
  end.

(** A scripted upstream: the [k]-th request gets the [k]-th outcome. *)
Definition scripted (outcomes : list http_outcome) (otherwise : http_outcome)
  : nat -> string -> http_outcome :=
  fun k _ => nth k outcomes otherwise.

Definition fresh (net : nat -> string -> http_outcome) : World := mk_World net 0 [].

Definition ok_response (body : string) (doc : option json_doc) : response :=
  mk_response 200 true "OK" body doc.

Definition error_response (code : Z) (why : string) : response :=
  mk_response code false why "" None.

(** What the [k]-th attempt of a request for [url] started in [w] gets. *)
Definition attempt_at (url : string) (w : World) (k : nat) : result response :=
  attempt_result default_timeout (network w (calls w + k) url).

(** A server error first, then a good answer. *)
Definition error_500_then_ok : World :=
  fresh (scripted [Responded (error_response 500 "Server Error")]
                  (Responded (ok_response "body" None))).

(** Nothing but 429. *)
Definition always_429 : World :=
  fresh (scripted [] (Responded (mk_response 429 false "Too Many Requests" "" None))).

(** Three timeouts, then 429. *)
Definition timeouts_then_429 : World :=
  fresh (scripted [Timeout; Timeout; Timeout]
                  (Responded (mk_response 429 true "Too Many Requests" "" None))).

(** A body of [get_history] that uses the network once. *)
Definition one_request_body (w : World) : result unit * World :=
  (inr tt, snd (session_request "http://www.tsetmc.com/" w)).

Definition silent_upstream : World := fresh (scripted [] Timeout).

(** Scenario B, and a row dated on the last day of the Gregorian year. *)
Definition scenario_B : string := "20240320,105,95,100,101,50,1000,100000,99".

Definition last_day_of_2024 : string := "20241231,105,95,100,101,50,1000,100000,99".

Definition overflowing_count : string :=
  "20240320,105,95,100,101,1e400,1000,100000,99" ++ String LF scenario_B.

(** The address [_fetch_day_trades_sync] asks for, when the day text can
    be read and converted. *)
Definition day_url (web_id j_date : string) : result string :=
  match (jd <- Jdatetime.strptime_Y_m_d j_date ;; Jdatetime.togregorian jd)%result with
  | inl e => inl e
  | inr g =>
      inr ("http://cdn.tsetmc.com/api/Trade/GetTradeHistory/" ++ web_id ++ "/"
           ++ Datetime.strftime_Ymd g ++ "/false")
  end.

(** The worlds in which the successive units of the loop start, and the
    frame each unit returns (empty ones included). *)
Fixpoint unit_worlds (web_id : string) (days : list string) (w : World) : list World :=
  match days with
  | [] => []
  | day :: rest => w :: unit_worlds web_id rest (snd (_fetch_day_trades_sync web_id day w))
  end.

Fixpoint unit_frames (web_id : string) (days : list string) (w : World)
  : list Trades.DataFrame :=
  match days with
  | [] => []
  | day :: rest =>
      fst (_fetch_day_trades_sync web_id day w)
      :: unit_frames web_id rest (snd (_fetch_day_trades_sync web_id day w))
  end.

(** The instrument lookup of the scenarios: no request, a fixed id. *)
Definition fixed_web_id (stock : string) (w : World) : result string * World :=
  (inr "778253364357513", w).

Definition one_trade : json_doc :=
  TradeDoc (Some (7%nat, [mk_trade_json 90000 (Some 10) (Some 100) 1])).

Definition day_response : http_outcome := Responded (ok_response "" (Some one_trade)).

(** Scenario C: five trading days, the third one timing out four times. *)
Definition scenario_C : World :=
  fresh (scripted
           [ Responded (ok_response "20240320@a;20240321@a;20240323@a;20240324@a;20240325@a" None);
             day_response; day_response;
             Timeout; Timeout; Timeout; Timeout;
             day_response; day_response ]
           Timeout).

(** Two trading days: the first times out, the second answers with an
    empty trade history. *)
Definition one_failure_one_empty : World :=
  fresh (scripted
           [ Responded (ok_response "20240320@a;20240321@a" None);
             Timeout; Timeout; Timeout; Timeout;
             Responded (ok_response "" (Some (TradeDoc None))) ]
           Timeout).

(** Six trading days, listed by the upstream from the latest to the
    earliest, each answering with one trade. *)
Definition six_days_latest_first : World :=
  fresh (scripted
           [ Responded (ok_response
               "20240326@a;20240325@a;20240324@a;20240323@a;20240321@a;20240320@a" None) ]
           day_response).

(** The worlds in which the two units of [one_failure_one_empty] start. *)
Definition first_unit_world : World :=
  snd (_get_trading_days "778253364357513" "1403-01-01" "1403-01-10" one_failure_one_empty).

Definition second_unit_world : World :=
  snd (_fetch_day_trades_sync "778253364357513" "1403-01-01" first_unit_world).

(** Stand-ins for pandas' parsers in the scenarios: dates written as
    eight digits or as year-month-day with hyphens, numbers as Python's
    [float] reads them. *)
Definition iso_to_datetime (s : string) : result Datetime.date :=
  if Jdatetime.all_digits s then strptime_Ymd s
  else
    match map_result Py.int (Py.split "-" s) with
    | inr [y; m; d] => Datetime.new y m d
    | _ => inl (ValueError ("Unknown datetime string format: " ++ s))
    end.

Definition float_to_numeric (s : string) : option Py.pyfloat := Py.float_literal s.

(** Scenario D: the adjusted-close feed has 2024-03-22, the OHLC feed has
    not. *)
Definition scenario_D : World :=
  fresh (scripted
           [ Responded (ok_response ""
               (Some (IndexDoc (Some
                  [ mk_index_json 20240320 (Some (Py.float_of_Z 2100));
                    mk_index_json 20240321 (Some (Py.float_of_Z 2110));
                    mk_index_json 20240322 (Some (Py.float_of_Z 2120)) ]))));
             Responded (ok_response
               "20240320,2105,2095,2098,2100,1000,d;20240321,2115,2105,2108,2110,1200,d"
               None) ]
           Timeout).

Definition scenario_D_rows : Index.DataFrame :=
  Eval vm_compute in
    match fst (get_index_history iso_to_datetime float_to_numeric "CWI" "1403-01-01"
                 "1403-01-10" false false false true scenario_D) with
    | inr df => df
    | inl _ => []
    end.

(** ** Further statements *)

(** The normalised text is accepted as it is, and is ten characters long. *)
Definition normal_form_ok (y m d : Z) : bool :=
  match validate_jalali_date (format_jalali y m d) with
  | inr s => String.eqb s (format_jalali y m d) && (String.length s =? 10)%nat
  | inl _ => false
  end.


(** Some character of the text is no white space. *)
Definition has_nonspace (s : string) : bool :=
  existsb (fun c => negb (Py.is_space c)) (list_ascii_of_string s).



(** The errors [_make_request] is documented to raise. *)
Definition is_transport_error (e : exn) : bool :=
  is_NetworkError e || is_APIError e || is_RateLimitError e.

(** A function that raises [e] and does nothing else. *)
Definition failing_with (e : exn) (w : World) : result unit * World := (inl e, w).


(** ** services/price_service.py, the return-index parser *)

Module Ri.

Record record : Type := mk_record {
  Date : string;
  RI_Open : option Py.pyfloat;
  RI_High : option Py.pyfloat;
  RI_Low : option Py.pyfloat;
  RI_Close : option Py.pyfloat;
  RI_Last : option Py.pyfloat;
  Count : option Z;
  Volume : option Z;
  Value : option Z
}.

Definition DataFrame : Type := list record.

Inductive line_outcome : Type :=
| Skipped
| Appended (r : record)
| Escaped (e : exn).

End Ri.

Definition parse_ri_line (line : string) : Ri.line_outcome :=
  if String.eqb (Py.strip line) "" then Ri.Skipped
  else
    let parts := Py.split "," line in
    if (9 <=? List.length parts)%nat then
      let date_str := field parts 0 in
      if (String.length date_str =? 8)%nat then
        let attempt : result Ri.record :=
          (year <- Py.int (Py.slice date_str 0 4) ;;
           month <- Py.int (Py.slice date_str 4 6) ;;
           day <- Py.int (Py.slice date_str 6 8) ;;
           jalali_date <- Jdatetime.new year month day ;;
           count <- safe_int_conversion (field parts 5) ;;
           volume <- safe_int_conversion (field parts 6) ;;
           value <- safe_int_conversion (field parts 7) ;;
           ret (Ri.mk_record
                  (Jdatetime.strftime_Y_m_d jalali_date)
                  (safe_float_conversion (field parts 8))
                  (safe_float_conversion (field parts 1))
                  (safe_float_conversion (field parts 2))
                  (safe_float_conversion (field parts 3))
                  (safe_float_conversion (field parts 4))
                  count volume value))%result in
        match attempt with
        | inr r => Ri.Appended r
        | inl (ValueError _) => Ri.Skipped
        | inl e => Ri.Escaped e
        end
      else Ri.Skipped
    else Ri.Skipped.

Fixpoint parse_ri_lines (lines : list string) : option Ri.DataFrame :=
  match lines with
  | [] => Some []
  | line :: rest =>
      match parse_ri_line line with
      | Ri.Skipped => parse_ri_lines rest
      | Ri.Appended r => option_map (cons r) (parse_ri_lines rest)
      | Ri.Escaped _ => None
      end
  end.

Definition _parse_ri_response (response_text : string) : Ri.DataFrame :=
  match parse_ri_lines (Py.split LF (Py.strip response_text)) with
  | Some ri_records => ri_records
  | None => []
  end.

(** A return-index record under the column names of a price record. *)
Definition ri_as_price (r : Ri.record) : Price.record :=
  Price.mk_record (Ri.Date r) (Ri.RI_Open r) (Ri.RI_High r) (Ri.RI_Low r)
    (Ri.RI_Close r) (Ri.RI_Last r) (Ri.Count r) (Ri.Volume r) (Ri.Value r).


(** Rows in ascending order of [le]: every row is [le] every later one. *)
Fixpoint ascending {A : Type} (le : A -> A -> bool) (l : list A) : bool :=
  match l with
  | [] => true
  | x :: rest => forallb (le x) rest && ascending le rest
  end.

(** Both rows carry a [Date], and the first is not after the second. *)
Definition date_not_after (a b : Index.row) : bool :=
  match Index.Date a, Index.Date b with
  | Some x, Some y => Datetime.leb x y
  | _, _ => false
  end.


(** ** services/base_service.py, the URL of an endpoint *)

(** [s.lstrip('/')] and [s.rstrip('/')] *)
Fixpoint lstrip_slash (s : string) : string :=
  match s with
  | String c s' => if Ascii.eqb c "/" then lstrip_slash s' else s
  | EmptyString => EmptyString
  end.

Definition rstrip_slash (s : string) : string :=
  Py.reverse (lstrip_slash (Py.reverse s)).

(** [s.startswith(prefix)] *)
Fixpoint startswith (prefix s : string) : bool :=
  match prefix, s with
  | EmptyString, _ => true
  | String a p, String b s' => Ascii.eqb a b && startswith p s'
  | String _ _, EmptyString => false
  end.

(** [self.base_url] as [BaseService.__init__] stores it. *)
Definition stored_base_url (base_url : string) : string := rstrip_slash base_url.

(** [BaseService._build_url], on the stored base URL. *)
Definition _build_url (base_url endpoint : string) : string :=
  if startswith "http" endpoint then endpoint
  else base_url ++ "/" ++ lstrip_slash endpoint.

Definition ends_with_slash (s : string) : bool :=
  match Py.reverse s with
  | String c _ => Ascii.eqb c "/"
  | EmptyString => false
  end.

(** All times of day [hh], [mm], [ss]. *)
Definition check_times (P : Z -> Z -> Z -> bool) : bool :=
  forallb (fun hh => forallb (fun mm => forallb (P hh mm) (Z_range 0 60)) (Z_range 0 60))
          (Z_range 0 24).

(** The [Time] cell of the trade made at [hh:mm:ss], which the feed gives
    as the number [hhmmss]. *)
Definition time_cell (hh mm ss : Z) : string :=
  format_time (Py.pad_left 6 "0" (Py.str_of_int (hh * 10000 + mm * 100 + ss))).

Definition time_cell_ok (hh mm ss : Z) : bool :=
  String.eqb (time_cell hh mm ss)
             (Py.format_0d 2 hh ++ ":" ++ Py.format_0d 2 mm ++ ":" ++ Py.format_0d 2 ss).

Definition is_ascii_text (s : string) : bool :=
  forallb (fun c => Py.ord c <? 128) (list_ascii_of_string s).

(** * Properties *)

Local Open Scope list_scope.
Unset Implicit Arguments.

(** ** Chunking *)

Section ChunkList.

Context {A : Type}.

Lemma firstn_plus (a b : nat) (l : list A) :
  firstn (a + b) l = firstn a l ++ firstn b (skipn a l).
Proof.
  revert l; induction a as [|a IH]; intros l; simpl.
  - reflexivity.
  - destruct l as [|x l]; simpl.
    + now rewrite firstn_nil.
    + now rewrite IH.
Qed.

Lemma slice_list_window (l : list A) (i k : nat) :
  Py.slice_list l i (i + k) = firstn k (skipn i l).
Proof. unfold Py.slice_list. now replace (i + k - i)%nat with k by lia. Qed.

(** The first [m] windows of width [k] make up the first [m * k] items. *)
Lemma concat_windows (k m : nat) (l : list A) :
  List.concat (map (fun q => firstn k (skipn (q * k) l)) (seq 0 m)) = firstn (m * k) l.
Proof.
  induction m as [|m IH].
  - reflexivity.
  - rewrite seq_S, map_app, concat_app, IH. simpl.
    rewrite app_nil_r.
    replace (k + m * k)%nat with (m * k + k)%nat by lia.
    now rewrite firstn_plus.
Qed.

Lemma range_step_count (n k : nat) :
  (0 < k)%nat ->
  let m := ((n + k - 1) / k)%nat in
  (n <= m * k)%nat /\ (0 < n -> 0 < m /\ (m - 1) * k < n)%nat.
Proof.
  intros Hk m.
  pose proof (Nat.div_mod (n + k - 1) k ltac:(lia)) as Hdm.
  pose proof (Nat.mod_upper_bound (n + k - 1) k ltac:(lia)) as Hr.
  fold m in Hdm.
  split; [nia|].
  intros Hn. assert (0 < m)%nat by (destruct m; [simpl in *; lia | lia]).
  split; [assumption|].
  destruct m as [|m']; [lia|]. simpl. rewrite Nat.sub_0_r. nia.
Qed.

End ChunkList.

(** C10.  [chunk_list xs k] either raises the [ValueError], exactly when
    [k <= 0], or returns chunks whose concatenation is [xs], none of them
    empty or longer than [k], and all but the last of length [k]. *)
Theorem chunk_list_spec (A : Type) (xs : list A) (k : Z) :
  match chunk_list xs k with
  | inl e => k <= 0 /\ e = ValueError "Chunk size must be positive"
  | inr chunks =>
      0 < k /\ List.concat chunks = xs
      /\ (forall i c, nth_error chunks i = Some c ->
            c <> [] /\ Z.of_nat (List.length c) <= k
            /\ ((S i < List.length chunks)%nat -> Z.of_nat (List.length c) = k))
  end.
Proof.
  unfold chunk_list.
  destruct (k <=? 0) eqn:Hk; simpl.
  - split; [lia | reflexivity].
  - apply Z.leb_gt in Hk.
    set (kn := Z.to_nat k).
    assert (Hkn : (0 < kn)%nat) by (unfold kn; lia).
    unfold Py.range_step. rewrite map_map.
    rewrite (map_ext _ (fun q => firstn kn (skipn (q * kn) xs)))
      by (intros q; apply slice_list_window).
    set (m := ((List.length xs + kn - 1) / kn)%nat).
    destruct (range_step_count (List.length xs) kn Hkn) as [Hcover Hlast].
    fold m in Hcover, Hlast.
    split; [assumption|]. split.
    + rewrite concat_windows. now apply firstn_all2.
    + intros i c Hc.
      rewrite nth_error_map, nth_error_seq in Hc.
      destruct (i <? m)%nat eqn:Him; [|discriminate].
      apply Nat.ltb_lt in Him. simpl in Hc. injection Hc as <-.
      rewrite length_map, length_seq.
      assert (Hlen : List.length (firstn kn (skipn (i * kn) xs))
                     = Nat.min kn (List.length xs - i * kn))
        by now rewrite length_firstn, length_skipn.
      assert (Hn : (0 < List.length xs)%nat).
      { destruct (Nat.eq_dec (List.length xs) 0) as [E|E]; [|lia].
        exfalso. assert (m = 0)%nat
          by (unfold m; rewrite E; apply Nat.div_small; lia).
        lia. }
      destruct (Hlast Hn) as [_ Hm].
      assert (Hi : (i * kn < List.length xs)%nat) by nia.
      split; [|split].
      * intros E. rewrite E in Hlen. simpl in Hlen. lia.
      * rewrite Hlen. unfold kn. lia.
      * intros Hmore. rewrite Hlen.
        assert ((i + 1) * kn <= (m - 1) * kn)%nat by (apply Nat.mul_le_mono_r; lia).
        unfold kn in *. lia.
Qed.

(** ** Calendar conversion *)

Lemma Z_range_In (lo : Z) (n : nat) (x : Z) :
  lo <= x < lo + Z.of_nat n -> In x (Z_range lo n).
Proof.
  intros H. unfold Z_range. apply in_map_iff.
  exists (Z.to_nat (x - lo)). split; [lia|].
  apply in_seq. lia.
Qed.

Lemma valid_jalali_bounds (y m d : Z) :
  valid_jalali y m d = true -> 1 <= m <= 12 /\ 1 <= d <= 31.
Proof.
  unfold valid_jalali, Jdatetime.new.
  destruct ((y <? Jdatetime.MINYEAR) || (Jdatetime.MAXYEAR <? y)); [discriminate|].
  destruct ((m <? 1) || (12 <? m)) eqn:Hm; [discriminate|].
  destruct (d <? 1) eqn:Hd; [discriminate|].
  apply orb_false_elim in Hm as [Hm1 Hm2].
  apply Z.ltb_ge in Hm1, Hm2, Hd.
  assert (Hcases : m = 1 \/ m = 2 \/ m = 3 \/ m = 4 \/ m = 5 \/ m = 6 \/ m = 7
                   \/ m = 8 \/ m = 9 \/ m = 10 \/ m = 11 \/ m = 12) by lia.
  intros H. split; [lia|]. split; [lia|].
  destruct (Z_le_gt_dec d 31) as [|Hbig]; [assumption|exfalso].
  assert (Hd30 : (d =? 30) = false) by (apply Z.eqb_neq; lia).
  rewrite Hd30, !andb_false_r in H. simpl in H.
  repeat (destruct Hcases as [->|Hcases]; [
    simpl in H; destruct (_ <? d) eqn:E; [discriminate | apply Z.ltb_ge in E; lia] |]).
  subst m. simpl in H.
  destruct (_ <? d) eqn:E; [discriminate | apply Z.ltb_ge in E; lia].
Qed.

Lemma check_dates_sound (P : Z -> Z -> Z -> bool) :
  check_dates P = true ->
  forall y m d, 1300 <= y <= 1450 -> valid_jalali y m d = true -> P y m d = true.
Proof.
  unfold check_dates. intros H y m d Hy Hv.
  destruct (valid_jalali_bounds _ _ _ Hv) as [Hm Hd].
  rewrite forallb_forall in H.
  specialize (H y (Z_range_In 1300 151 y ltac:(simpl; lia))).
  rewrite forallb_forall in H.
  specialize (H m (Z_range_In 1 12 m ltac:(simpl; lia))).
  rewrite forallb_forall in H.
  specialize (H d (Z_range_In 1 31 d ltac:(simpl; lia))).
  now rewrite Hv in H.
Qed.

Lemma dates_checked :
  check_dates (fun y m d => roundtrip_ok y m d && parts_ok y m d) = true.
Proof. vm_compute. reflexivity. Qed.

(** C4.  For every valid Jalali date whose year lies in [1300, 1450],
    converting its normalised text to Gregorian succeeds, and converting
    that Gregorian date back gives the same text again. *)
Theorem jalali_gregorian_roundtrip (y m d : Z) :
  1300 <= y <= 1450 -> valid_jalali y m d = true ->
  exists g, convert_jalali_to_gregorian (format_jalali y m d) = inr g
            /\ convert_gregorian_to_jalali g = inr (format_jalali y m d).
Proof.
  intros Hy Hv.
  pose proof (check_dates_sound _ dates_checked y m d Hy Hv) as H.
  apply andb_prop in H as [H _]. unfold roundtrip_ok in H.
  destruct (convert_jalali_to_gregorian (format_jalali y m d)) as [|g]; [discriminate|].
  exists g. split; [reflexivity|].
  destruct (convert_gregorian_to_jalali g) as [|s]; [discriminate|].
  apply String.eqb_eq in H. now subst.
Qed.

Lemma jalali_gregorian_roundtrip_witness :
  exists g, convert_jalali_to_gregorian (format_jalali 1403 12 30) = inr g
            /\ convert_gregorian_to_jalali g = inr (format_jalali 1403 12 30).
Proof.
  apply (jalali_gregorian_roundtrip 1403 12 30); [lia | reflexivity].
Defined.

Lemma parts_of_format (y m d : Z) :
  1300 <= y <= 1450 -> valid_jalali y m d = true ->
  map_result Py.int (Py.split "-" (format_jalali y m d)) = inr [y; m; d].
Proof.
  intros Hy Hv.
  pose proof (check_dates_sound _ dates_checked y m d Hy Hv) as H.
  apply andb_prop in H as [_ H]. unfold parts_ok in H.
  destruct (map_result Py.int (Py.split "-" (format_jalali y m d)))
    as [|[|a [|b [|c [|]]]]]; try discriminate.
  apply andb_prop in H as [H Hc]. apply andb_prop in H as [Ha Hb].
  apply Z.eqb_eq in Ha, Hb, Hc. now subst.
Qed.

Lemma jdatetime_new_inr (y m d : Z) (jd : Jdatetime.date) :
  Jdatetime.new y m d = inr jd -> jd = Jdatetime.mkdate y m d.
Proof.
  unfold Jdatetime.new.
  repeat match goal with
         | |- context [if ?b then _ else _] => destruct b
         end; intros H; try discriminate; now injection H as <-.
Qed.

(** Whatever text [validate_jalali_date] accepts normalises to a date. *)
Lemma validate_normal_form (s n : string) :
  validate_jalali_date s = inr n -> exists y m d, n = format_jalali y m d /\ normalizes_to s y m d.
Proof.
  intros H. pose proof H as H0. revert H.
  unfold validate_jalali_date, validate_jalali_date_field.
  destruct (String.eqb s ""); [discriminate|].
  destruct (Py.split "-" (hyphenate (Py.strip s))) as [|ys [|ms [|ds [|]]]];
    try discriminate.
  unfold bind.
  destruct (Py.int ys) as [e|y]; [destruct e; discriminate|].
  destruct (Py.int ms) as [e|m]; [destruct e; discriminate|].
  destruct (Py.int ds) as [e|d]; [destruct e; discriminate|].
  destruct ((y <? 1300) || (1450 <? y)) eqn:Hy; [discriminate|].
  destruct (Jdatetime.new y m d) as [e|jd] eqn:Hnew; [destruct e; discriminate|].
  apply jdatetime_new_inr in Hnew as Hjd. subst jd. simpl.
  intros H. injection H as <-.
  exists y, m, d. split; [reflexivity|].
  apply orb_false_elim in Hy as [Hy1 Hy2]. apply Z.ltb_ge in Hy1, Hy2.
  unfold normalizes_to, valid_jalali. rewrite Hnew. repeat split; try lia; assumption.
Qed.

(** ** Date ranges *)

Lemma date_after_list_gt (y1 m1 d1 y2 m2 d2 : Z) :
  date_after y1 m1 d1 y2 m2 d2 -> Py.list_gt [y1; m1; d1] [y2; m2; d2] = true.
Proof.
  unfold date_after. intros H. simpl.
  destruct (y2 <? y1) eqn:Ey; [reflexivity|]. apply Z.ltb_ge in Ey.
  destruct H as [H|[-> H]]; [lia|].
  rewrite Z.ltb_irrefl.
  destruct (m2 <? m1) eqn:Em; [reflexivity|]. apply Z.ltb_ge in Em.
  destruct H as [H|[-> H]]; [lia|].
  rewrite Z.ltb_irrefl.
  destruct (d2 <? d1) eqn:Ed; [reflexivity|]. apply Z.ltb_ge in Ed. lia.
Qed.

(** The range check reads the normalised dates only. *)
Lemma validate_date_range_normalized (s e : string) (y1 m1 d1 y2 m2 d2 : Z) :
  normalizes_to s y1 m1 d1 -> normalizes_to e y2 m2 d2 ->
  _validate_date_range s e =
  if Py.list_gt [y1; m1; d1] [y2; m2; d2]
  then inl (TSETMCValidationError "Start date must be before end date" None None)
  else inr tt.
Proof.
  intros (Hs & Hy1 & Hv1) (He & Hy2 & Hv2).
  unfold _validate_date_range. rewrite Hs, He. unfold bind, ret.
  rewrite (parts_of_format _ _ _ Hy1 Hv1), (parts_of_format _ _ _ Hy2 Hv2).
  reflexivity.
Qed.

(** C3, amended.  When the start date is strictly after the end date once
    both texts are normalised, the range check fails on the normalised
    values, and a history request that has not set [ignore_date] fails
    with a validation error in the world it was started in: no request
    has been made, whatever the body of the operation would do. *)
Theorem start_after_end_rejected
        (DF : Type) (body : World -> result DF * World)
        (stock s e : string) (y1 m1 d1 y2 m2 d2 : Z) (w : World) :
  normalizes_to s y1 m1 d1 -> normalizes_to e y2 m2 d2 ->
  date_after y1 m1 d1 y2 m2 d2 ->
  _validate_date_range s e
  = inl (TSETMCValidationError "Start date must be before end date" None None)
  /\ exists err, get_history body stock s e false w = (inl err, w)
                 /\ is_ValidationError err = true.
Proof.
  intros Hs He Hafter.
  assert (Hrange : _validate_date_range s e
            = inl (TSETMCValidationError "Start date must be before end date" None None)).
  { rewrite (validate_date_range_normalized _ _ _ _ _ _ _ _ Hs He).
    now rewrite (date_after_list_gt _ _ _ _ _ _ Hafter). }
  split; [assumption|].
  unfold get_history.
  destruct (_validate_stock_name stock) as [err|[]] eqn:Hstock.
  - exists err. split; [reflexivity|].
    revert Hstock. unfold _validate_stock_name.
    destruct (String.eqb stock ""); [intros H; injection H as <-; reflexivity|].
    destruct (String.length (Py.strip stock) =? 0)%nat; [|discriminate].
    intros H; injection H as <-; reflexivity.
  - simpl negb. cbv iota. rewrite Hrange. eexists. split; reflexivity.
Qed.

Lemma start_after_end_rejected_witness :
  exists err,
    get_history one_request_body "stock" "1404/01/02" "1404-01-01" false silent_upstream
    = (inl err, silent_upstream)
    /\ is_ValidationError err = true.
Proof.
  apply (start_after_end_rejected unit one_request_body "stock" "1404/01/02" "1404-01-01"
           1404 1 2 1404 1 1).
  - repeat split; try reflexivity; lia.
  - repeat split; try reflexivity; lia.
  - right. split; [reflexivity|]. right. split; [reflexivity | lia].
Defined.

(** With [ignore_date] set the same range is not checked: the request
    goes on to the network. *)
Lemma start_after_end_ignored :
  normalizes_to "1404-01-02" 1404 1 2 /\ normalizes_to "1404-01-01" 1404 1 1
  /\ date_after 1404 1 2 1404 1 1
  /\ fst (get_history one_request_body "stock" "1404-01-02" "1404-01-01" true
            silent_upstream) = inr tt
  /\ calls (snd (get_history one_request_body "stock" "1404-01-02" "1404-01-01" true
                   silent_upstream)) = 1%nat.
Proof.
  repeat split; try reflexivity; try lia.
  right. split; [reflexivity|]. right. split; [reflexivity | lia].
Qed.

Example slash_and_hyphen_compare_equal :
  _validate_date_range "1403/01/01" "1403-01-01" = inr tt
  /\ _validate_date_range "1403-01-01" "1403/01/01" = inr tt.
Proof. split; reflexivity. Qed.

(** ** Transport *)

Lemma make_request_wrapped_attempt (timeout : Z) (url : string) (w : World) :
  _make_request_wrapped timeout url w
  = (attempt_result timeout (network w (calls w) url),
     mk_World (network w) (S (calls w)) (slept w)).
Proof.
  unfold _make_request_wrapped, session_request, attempt_result.
  destruct (network w (calls w) url) as [r| | |]; try reflexivity.
  destruct (status_code r =? 429); [reflexivity|].
  destruct (ok r); reflexivity.
Qed.

(** The four attempts of [_make_request], unfolded. *)
Lemma make_request_attempts (url : string) (w : World) :
  _make_request url w =
  match attempt_at url w 0 with
  | inr r => (inr r, after_attempts w 1 [])
  | inl _ =>
      match attempt_at url w 1 with
      | inr r => (inr r, after_attempts w 2 [1%Q])
      | inl _ =>
          match attempt_at url w 2 with
          | inr r => (inr r, after_attempts w 3 [1%Q; 2%Q])
          | inl _ => (attempt_at url w 3, after_attempts w 4 [1%Q; 2%Q; 4%Q])
          end
      end
  end.
Proof.
  unfold attempt_at, _make_request, retry_on_failure, after_attempts.
  destruct w as [net c sl]. simpl network. simpl calls. simpl slept.
  change (Z.to_nat (3 + 1)) with 4%nat.
  replace (c + 0)%nat with c by lia.
  replace (c + 1)%nat with (S c) by lia.
  replace (c + 2)%nat with (S (S c)) by lia.
  replace (c + 3)%nat with (S (S (S c))) by lia.
  replace (c + 4)%nat with (S (S (S (S c)))) by lia.
  cbn [retry_loop]. rewrite make_request_wrapped_attempt. simpl network; simpl calls; simpl slept.
  destruct (attempt_result default_timeout (net c url)) as [e0|r0].
  2:{ unfold ret. now rewrite app_nil_r. }
  cbn [Z.eqb Pos.eqb]. unfold sleep. simpl network; simpl calls; simpl slept.
  rewrite make_request_wrapped_attempt. simpl network; simpl calls; simpl slept.
  destruct (attempt_result default_timeout (net (S c) url)) as [e1|r1]; [|reflexivity].
  change (0 + 1 =? 3) with false. cbv iota.
  rewrite make_request_wrapped_attempt. simpl network; simpl calls; simpl slept.
  destruct (attempt_result default_timeout (net (S (S c)) url)) as [e2|r2].
  2:{ unfold ret. now rewrite <- app_assoc. }
  change (0 + 1 + 1 =? 3) with false. cbv iota.
  rewrite make_request_wrapped_attempt. simpl network; simpl calls; simpl slept.
  rewrite <- !app_assoc. simpl app.
  destruct (attempt_result default_timeout (net (S (S (S c))) url)) as [e3|r3];
    reflexivity.
Qed.

(** C2, amended.  The retry policy repeats a request after every exception
    of an attempt, the [ApiError] of an error status and the rate-limit
    error as much as the transient network failures: up to four attempts,
    sleeping 1, 2 and 4 seconds in between; the caller gets the first
    response that is accepted, or the error of the fourth attempt. *)
Theorem retry_policy (url : string) (w : World) :
  _make_request url w =
  match attempt_at url w 0 with
  | inr r => (inr r, after_attempts w 1 [])
  | inl _ =>
      match attempt_at url w 1 with
      | inr r => (inr r, after_attempts w 2 [1%Q])
      | inl _ =>
          match attempt_at url w 2 with
          | inr r => (inr r, after_attempts w 3 [1%Q; 2%Q])
          | inl _ => (attempt_at url w 3, after_attempts w 4 [1%Q; 2%Q; 4%Q])
          end
      end
  end.
Proof. apply make_request_attempts. Qed.

(** An [ApiError] at the first attempt is not surfaced: the request is
    repeated, here with success. *)
Lemma api_error_is_retried :
  network error_500_then_ok 0 "u" = Responded (error_response 500 "Server Error")
  /\ fst (_make_request_wrapped default_timeout "u" error_500_then_ok)
     = inl (TSETMCAPIError "HTTP 500: Server Error" (Some 500))
  /\ fst (_make_request "u" error_500_then_ok) = inr (ok_response "body" None)
  /\ calls (snd (_make_request "u" error_500_then_ok)) = 2%nat
  /\ slept (snd (_make_request "u" error_500_then_ok)) = [1%Q].
Proof. repeat split; reflexivity. Qed.

(** The error of a 429 carries no hint. *)
Lemma rate_limit_error_has_no_hint :
  exists e, fst (_make_request "u" always_429) = inl e
            /\ is_RateLimitError e = true /\ retry_hint e = None.
Proof. eexists. repeat split; reflexivity. Qed.

(** C9, amended.  An attempt that receives status 429 raises the rate-limit
    error, never the generic API error, whatever the [ok] flag says; the
    error carries no retry hint ([retry_after] is [None]).  It is retried
    like any other error and reaches the caller when the fourth attempt
    still receives 429. *)
Theorem rate_limit_error_kind (url : string) (w : World) (r : response) :
  (forall k, (k < 3)%nat -> exists e, attempt_at url w k = inl e) ->
  network w (calls w + 3) url = Responded r ->
  status_code r = 429 ->
  (forall timeout,
      attempt_result timeout (Responded r)
      = inl (TSETMCRateLimitError "Rate limit exceeded" None None))
  /\ fst (_make_request url w)
     = inl (TSETMCRateLimitError "Rate limit exceeded" None None)
  /\ calls (snd (_make_request url w)) = (calls w + 4)%nat.
Proof.
  intros Hfail Hlast Hcode.
  assert (Hkind : forall timeout,
             attempt_result timeout (Responded r)
             = inl (TSETMCRateLimitError "Rate limit exceeded" None None)).
  { intros timeout. unfold attempt_result. now rewrite Hcode. }
  split; [assumption|].
  rewrite make_request_attempts.
  destruct (Hfail 0%nat ltac:(lia)) as [e0 ->].
  destruct (Hfail 1%nat ltac:(lia)) as [e1 ->].
  destruct (Hfail 2%nat ltac:(lia)) as [e2 ->].
  unfold attempt_at. rewrite Hlast, Hkind. split; reflexivity.
Qed.

Lemma rate_limit_error_kind_witness :
  fst (_make_request "u" timeouts_then_429)
  = inl (TSETMCRateLimitError "Rate limit exceeded" None None)
  /\ calls (snd (_make_request "u" timeouts_then_429)) = 4%nat.
Proof.
  apply (rate_limit_error_kind "u" timeouts_then_429
           (mk_response 429 true "Too Many Requests" "" None)).
  - intros [|[|[|k]]] Hk; try lia; eexists; reflexivity.
  - reflexivity.
  - reflexivity.
Defined.

(** ** Price history *)


(** C1, amended.  The text of scenario B parses to exactly one record with
    high 105, low 95, close 100, last 101, count 50, volume 1000, value
    100000 and open 99 (its date is left open here). *)
Theorem scenario_B_record :
  exists date,
    _parse_price_response scenario_B
    = [ Price.mk_record date
          (Some (Py.float_of_Z 99)) (Some (Py.float_of_Z 105))
          (Some (Py.float_of_Z 95)) (Some (Py.float_of_Z 100))
          (Some (Py.float_of_Z 101)) (Some 50) (Some 1000) (Some 100000) ].
Proof. exists "2024-03-20". vm_compute. reflexivity. Qed.

(** The date of that record is the Gregorian text with hyphens, not the
    Jalali date 1402-12-30 (nor 1403-01-01, which is what the conversion of
    2024-03-20 gives). *)
Lemma scenario_B_date :
  map Price.Date (_parse_price_response scenario_B) = ["2024-03-20"]
  /\ map Price.Date (_parse_price_response scenario_B) <> ["1402-12-30"]
  /\ convert_gregorian_to_jalali (Datetime.mkdate 2024 3 20) = inr "1403-01-01".
Proof.
  split; [vm_compute; reflexivity|].
  split; [vm_compute; discriminate | vm_compute; reflexivity].
Qed.

Lemma split_length_pos (sep : ascii) (s : string) : (1 <= List.length (Py.split sep s))%nat.
Proof.
  induction s as [|c s IH]; simpl; [lia|].
  destruct (Ascii.eqb c sep); simpl; [lia|].
  destruct (Py.split sep s); simpl in *; lia.
Qed.

(** A line with fewer than nine fields adds nothing. *)
Lemma short_line_skipped (line : string) :
  (List.length (Py.split "," line) < 9)%nat -> parse_price_line line = Skipped.
Proof.
  intros H. unfold parse_price_line.
  destruct (String.eqb (Py.strip line) ""); [reflexivity|].
  destruct (9 <=? List.length (Py.split "," line))%nat eqn:E; [|reflexivity].
  apply Nat.leb_le in E. lia.
Qed.

(** A field that is no number is missing in the record, not zero. *)
Lemma unparsable_float_is_missing (value : string) :
  Py.float_literal value = None -> safe_float_conversion value = None.
Proof.
  intros H. unfold safe_float_conversion, Py.float. rewrite H.
  destruct (String.eqb value "" || String.eqb value "N/A"); reflexivity.
Qed.

Lemma unparsable_int_is_missing (value : string) :
  Py.float_literal value = None -> safe_int_conversion value = inr None.
Proof.
  intros H. unfold safe_int_conversion, Py.float, bind. rewrite H.
  destruct (String.eqb value "" || String.eqb value "N/A"); reflexivity.
Qed.


(** C8.  A row of nine numeric fields whose date is the Gregorian
    2024-12-31 is lost: the parser builds a Jalali date from the Gregorian
    digits, and Esfand has no 31st day.  An overflowing count in one row
    loses every row of the text. *)
Theorem well_formed_row_dropped :
  List.length (Py.split "," last_day_of_2024) = 9%nat
  /\ strptime_Ymd (field (Py.split "," last_day_of_2024) 0)
     = inr (Datetime.mkdate 2024 12 31)
  /\ forallb (fun f => match Py.float_literal f with Some _ => true | None => false end)
             (tl (Py.split "," last_day_of_2024)) = true
  /\ _parse_price_response last_day_of_2024 = []
  /\ _parse_price_response overflowing_count = [].
Proof. repeat split; vm_compute; reflexivity. Qed.

(** ** Intraday fan-out *)

Lemma fetch_day_rows (web_id day : string) (w : World) (row : Trades.row) :
  In row (fst (_fetch_day_trades_sync web_id day w)) -> Trades.J_Date row = day.
Proof.
  unfold _fetch_day_trades_sync.
  destruct (bind _ _) as [e|g]; [intros []|].
  destruct (_make_request _ w) as [[e|response] w1]; [intros []|].
  destruct (json response) as [[[[ncols elements]|]|]|]; try (intros []).
  destruct elements as [|t ts]; [intros []|].
  destruct (ncols <? 6)%nat; [intros []|].
  simpl fst. unfold day_frame. intros H.
  apply in_flat_map in H as (x & _ & H).
  destruct (qTitTran x), (pTran x); simpl in H; try contradiction.
  destruct H as [<-|[]]. reflexivity.
Qed.

Lemma fetch_day_fails (web_id day url : string) (w : World) (err : exn) :
  day_url web_id day = inr url -> fst (_make_request url w) = inl err ->
  fst (_fetch_day_trades_sync web_id day w) = [].
Proof.
  unfold day_url, _fetch_day_trades_sync.
  destruct (bind _ _) as [e|g]; [discriminate|].
  intros H; injection H as <-.
  destruct (_make_request _ w) as [[e|response] w1]; [reflexivity|discriminate].
Qed.

Lemma fetch_days_units (web_id : string) (days : list string) (w : World) :
  List.concat (fst (fetch_days web_id days w)) = List.concat (unit_frames web_id days w).
Proof.
  revert w; induction days as [|day rest IH]; intros w; simpl; [reflexivity|].
  destruct (_fetch_day_trades_sync web_id day w) as [result w1]. simpl.
  specialize (IH w1). destruct (fetch_days web_id rest w1) as [results w2].
  simpl in *. rewrite <- IH. now destruct result.
Qed.

Lemma unit_frames_length (web_id : string) (days : list string) (w : World) :
  List.length (unit_frames web_id days w) = List.length days.
Proof. revert w; induction days; intros w; simpl; [reflexivity | now rewrite IHdays]. Qed.

Lemma unit_frames_nth (web_id : string) (days : list string) (w : World)
      (i : nat) (day : string) (wi : World) :
  nth_error days i = Some day -> nth_error (unit_worlds web_id days w) i = Some wi ->
  nth i (unit_frames web_id days w) [] = fst (_fetch_day_trades_sync web_id day wi).
Proof.
  revert w i; induction days as [|d rest IH]; intros w [|i]; simpl; try discriminate.
  - intros H1 H2. injection H1 as ->. injection H2 as ->. reflexivity.
  - apply IH.
Qed.

Lemma unit_frames_rows (web_id : string) (days : list string) (w : World) (row : Trades.row) :
  In row (List.concat (unit_frames web_id days w)) -> In (Trades.J_Date row) days.
Proof.
  revert w; induction days as [|d rest IH]; intros w; simpl; [intros []|].
  intros H. apply in_app_or in H as [H|H].
  - left. symmetry. now apply fetch_day_rows in H.
  - right. now apply IH in H.
Qed.

Lemma firstn_min_length {A : Type} (l : list A) (n : nat) :
  firstn (Nat.min (List.length l) n) l = firstn n l.
Proof.
  destruct (Nat.le_ge_cases (List.length l) n) as [H|H].
  - rewrite Nat.min_l by assumption. now rewrite firstn_all, firstn_all2.
  - now rewrite Nat.min_r.
Qed.

(** What the whole operation returns once the days are known. *)
Lemma intraday_result (get_web_id : string -> World -> result string * World)
      (stock s e web_id : string) (w w1 w2 : World) (days : list string) :
  _validate_stock_name stock = inr tt -> _validate_date_range s e = inr tt ->
  get_web_id stock w = (inr web_id, w1) ->
  _get_trading_days web_id s e w1 = (inr days, w2) -> days <> [] ->
  get_intraday_trades_history get_web_id stock s e w
  = (match List.concat (unit_frames web_id (firstn 5 days) w2) with
     | [] => inl (TSETMCDataError "No intraday trade data found.")
     | df => inr df
     end, snd (fetch_days web_id (firstn 5 days) w2)).
Proof.
  intros Hstock Hrange Hid Hdays Hne.
  unfold get_intraday_trades_history. rewrite Hstock, Hrange, Hid, Hdays.
  destruct days as [|d0 rest]; [contradiction|].
  rewrite firstn_min_length.
  rewrite <- fetch_days_units.
  destruct (fetch_days web_id (firstn 5 (d0 :: rest)) w2) as [results w3].
  simpl fst. simpl snd.
  destruct (List.concat results); reflexivity.
Qed.

Lemma intraday_success_inv (get_web_id : string -> World -> result string * World)
      (stock s e : string) (w w' : World) (df : Trades.DataFrame) :
  get_intraday_trades_history get_web_id stock s e w = (inr df, w') ->
  exists web_id w1 days w2,
    _validate_stock_name stock = inr tt /\ _validate_date_range s e = inr tt
    /\ get_web_id stock w = (inr web_id, w1)
    /\ _get_trading_days web_id s e w1 = (inr days, w2) /\ days <> [].
Proof.
  unfold get_intraday_trades_history.
  destruct (_validate_stock_name stock) as [|[]]; [discriminate|].
  destruct (_validate_date_range s e) as [|[]]; [discriminate|].
  destruct (get_web_id stock w) as [[err|web_id] w1].
  { unfold reraise_as_api_error, raise. destruct (is_TSETMCError err); discriminate. }
  destruct (_get_trading_days web_id s e w1) as [[err|days] w2] eqn:Hdays.
  { unfold reraise_as_api_error, raise. destruct (is_TSETMCError err); discriminate. }
  destruct days as [|d0 rest]; [discriminate|].
  intros _. exists web_id, w1, (d0 :: rest), w2.
  repeat split; try reflexivity; try assumption; discriminate.
Qed.

(** C5, amended.  The bulk fetch runs over the first five trading days at
    most.  A day whose request fails on all retries contributes no row;
    every row of a day carries that day's date; the operation returns the
    rows of all fetched days together, and raises the data error exactly
    when no fetched day has any row. *)
Theorem intraday_failure_isolation
        (get_web_id : string -> World -> result string * World)
        (stock s e web_id : string) (w w1 w2 : World) (days : list string) :
  _validate_stock_name stock = inr tt -> _validate_date_range s e = inr tt ->
  get_web_id stock w = (inr web_id, w1) ->
  _get_trading_days web_id s e w1 = (inr days, w2) -> days <> [] ->
  let units := firstn 5 days in
  let frames := unit_frames web_id units w2 in
  fst (get_intraday_trades_history get_web_id stock s e w)
  = match List.concat frames with
    | [] => inl (TSETMCDataError "No intraday trade data found.")
    | df => inr df
    end
  /\ forall i day wi,
      nth_error units i = Some day ->
      nth_error (unit_worlds web_id units w2) i = Some wi ->
      (forall row, In row (nth i frames []) -> Trades.J_Date row = day)
      /\ (forall url err,
             day_url web_id day = inr url -> fst (_make_request url wi) = inl err ->
             nth i frames [] = []).
Proof.
  intros Hstock Hrange Hid Hdays Hne units frames.
  split.
  - now rewrite (intraday_result _ _ _ _ _ _ _ _ _ Hstock Hrange Hid Hdays Hne).
  - intros i day wi Hday Hwi. unfold frames.
    rewrite (unit_frames_nth _ _ _ _ _ _ Hday Hwi). split.
    + intros row. apply fetch_day_rows.
    + intros url err. apply fetch_day_fails.
Qed.

(** Scenario C: four records, none for the third day, 1403-01-04. *)
Lemma intraday_failure_isolation_witness :
  fst (get_intraday_trades_history fixed_web_id "stock" "1403-01-01" "1403-01-10" scenario_C)
  = inr [ Trades.mk_row "1403-01-01" "09:00:00" 10 100;
          Trades.mk_row "1403-01-02" "09:00:00" 10 100;
          Trades.mk_row "1403-01-05" "09:00:00" 10 100;
          Trades.mk_row "1403-01-06" "09:00:00" 10 100 ].
Proof.
  destruct (intraday_failure_isolation fixed_web_id "stock" "1403-01-01" "1403-01-10"
              "778253364357513" scenario_C scenario_C
              (snd (_get_trading_days "778253364357513" "1403-01-01" "1403-01-10" scenario_C))
              ["1403-01-01"; "1403-01-02"; "1403-01-04"; "1403-01-05"; "1403-01-06"])
    as [H _].
  - vm_compute; reflexivity.
  - vm_compute; reflexivity.
  - reflexivity.
  - vm_compute; reflexivity.
  - discriminate.
  - rewrite H. vm_compute. reflexivity.
Defined.

(** One day fails, the other has nothing to report: the operation raises
    although not every day failed. *)
Lemma one_failure_can_raise :
  fst (_get_trading_days "778253364357513" "1403-01-01" "1403-01-10" one_failure_one_empty)
  = inr ["1403-01-01"; "1403-01-02"]
  /\ (exists url, day_url "778253364357513" "1403-01-01" = inr url
                  /\ fst (_make_request url first_unit_world)
                     = inl (TSETMCNetworkError "Request timeout after 30 seconds"))
  /\ (exists url, day_url "778253364357513" "1403-01-02" = inr url
                  /\ fst (_make_request url second_unit_world)
                     = inr (ok_response "" (Some (TradeDoc None))))
  /\ fst (get_intraday_trades_history fixed_web_id "stock" "1403-01-01" "1403-01-10"
            one_failure_one_empty)
     = inl (TSETMCDataError "No intraday trade data found.").
Proof.
  split; [vm_compute; reflexivity|].
  split; [eexists; split; vm_compute; reflexivity|].
  split; [eexists; split; vm_compute; reflexivity|].
  vm_compute; reflexivity.
Qed.

(** C6, amended.  Whenever the intraday operation returns a table, it has
    run one unit for each of the first five days of the list the upstream
    gave (in the upstream's order, whichever dates these are) and none for
    the days after them: every row is dated on one of the first five
    days, and a day that occurs only beyond the fifth has no row. *)
Theorem intraday_cap_keeps_head
        (get_web_id : string -> World -> result string * World)
        (stock s e : string) (w w' : World) (df : Trades.DataFrame) :
  get_intraday_trades_history get_web_id stock s e w = (inr df, w') ->
  exists web_id w1 days w2,
    get_web_id stock w = (inr web_id, w1)
    /\ _get_trading_days web_id s e w1 = (inr days, w2)
    /\ df = List.concat (unit_frames web_id (firstn 5 days) w2)
    /\ List.length (unit_frames web_id (firstn 5 days) w2) = Nat.min 5 (List.length days)
    /\ (forall row, In row df -> In (Trades.J_Date row) (firstn 5 days))
    /\ (forall day, In day (skipn 5 days) -> ~ In day (firstn 5 days) ->
                    forall row, In row df -> Trades.J_Date row <> day).
Proof.
  intros Hrun.
  destruct (intraday_success_inv _ _ _ _ _ _ _ Hrun)
    as (web_id & w1 & days & w2 & Hstock & Hrange & Hid & Hdays & Hne).
  exists web_id, w1, days, w2.
  pose proof (intraday_result _ _ _ _ _ _ _ _ _ Hstock Hrange Hid Hdays Hne) as Hres.
  rewrite Hrun in Hres.
  assert (Hdf : df = List.concat (unit_frames web_id (firstn 5 days) w2)).
  { destruct (List.concat (unit_frames web_id (firstn 5 days) w2));
      [discriminate | now injection Hres]. }
  assert (Hrows : forall row, In row df -> In (Trades.J_Date row) (firstn 5 days)).
  { intros row Hin. rewrite Hdf in Hin. now apply unit_frames_rows in Hin. }
  repeat split; try assumption.
  - now rewrite unit_frames_length, length_firstn.
  - intros day _ Hout row Hin Heq. apply Hout. rewrite <- Heq. now apply Hrows.
Qed.

Lemma intraday_cap_keeps_head_witness :
  exists days,
    fst (_get_trading_days "778253364357513" "1403-01-01" "1403-01-10" six_days_latest_first)
    = inr days
    /\ forall row,
        In row [ Trades.mk_row "1403-01-07" "09:00:00" 10 100;
                 Trades.mk_row "1403-01-06" "09:00:00" 10 100;
                 Trades.mk_row "1403-01-05" "09:00:00" 10 100;
                 Trades.mk_row "1403-01-04" "09:00:00" 10 100;
                 Trades.mk_row "1403-01-02" "09:00:00" 10 100 ] ->
        In (Trades.J_Date row) (firstn 5 days).
Proof.
  destruct (intraday_cap_keeps_head fixed_web_id "stock" "1403-01-01" "1403-01-10"
              six_days_latest_first
              (snd (get_intraday_trades_history fixed_web_id "stock" "1403-01-01"
                      "1403-01-10" six_days_latest_first))
              [ Trades.mk_row "1403-01-07" "09:00:00" 10 100;
                Trades.mk_row "1403-01-06" "09:00:00" 10 100;
                Trades.mk_row "1403-01-05" "09:00:00" 10 100;
                Trades.mk_row "1403-01-04" "09:00:00" 10 100;
                Trades.mk_row "1403-01-02" "09:00:00" 10 100 ])
    as (web_id & w1 & days & w2 & Hid & Hdays & _ & _ & Hrows & _).
  - vm_compute; reflexivity.
  - exists days. split; [|exact Hrows].
    injection Hid as <- <-. now rewrite Hdays.
Defined.

(** With the upstream listing the latest day first, the day beyond the
    cap is the earliest one, 1403-01-01, and the latest day is kept. *)
Lemma dropped_day_is_the_earliest :
  fst (_get_trading_days "778253364357513" "1403-01-01" "1403-01-10" six_days_latest_first)
  = inr ["1403-01-07"; "1403-01-06"; "1403-01-05"; "1403-01-04"; "1403-01-02"; "1403-01-01"]
  /\ option_map (map Trades.J_Date)
       (match fst (get_intraday_trades_history fixed_web_id "stock" "1403-01-01"
                     "1403-01-10" six_days_latest_first) with
        | inr df => Some df
        | inl _ => None
        end)
     = Some ["1403-01-07"; "1403-01-06"; "1403-01-05"; "1403-01-04"; "1403-01-02"].
Proof. split; vm_compute; reflexivity. Qed.

(** ** Index history *)

Lemma datetime_eqb_eq (a b : Datetime.date) : Datetime.eqb a b = true -> a = b.
Proof.
  destruct a, b. unfold Datetime.eqb. simpl. intros H.
  apply andb_prop in H as [H Hd]. apply andb_prop in H as [Hy Hm].
  apply Z.eqb_eq in Hy, Hm, Hd. now subst.
Qed.

Lemma insert_sorted_In {A : Type} (le : A -> A -> bool) (x y : A) (l : list A) :
  In y (insert_sorted le x l) -> y = x \/ In y l.
Proof.
  induction l as [|z l IH]; simpl.
  - intros [<-|[]]. now left.
  - destruct (le x z); simpl.
    + intros [<-|H]; [now left | now right].
    + intros [<-|H]; [right; now left|].
      destruct (IH H) as [->|H']; [now left | right; now right].
Qed.

Lemma sort_values_In {A : Type} (le : A -> A -> bool) (y : A) (l : list A) :
  In y (sort_values le l) -> In y l.
Proof.
  induction l as [|x l IH]; simpl; [intros []|].
  intros H. apply insert_sorted_In in H as [->|H]; [now left | right; now apply IH].
Qed.

(** Every row of the joined table comes from one OHLC row and one
    adjusted-close row of the same date. *)
Lemma joined_frame_rows (to_numeric : string -> option Py.pyfloat)
      (ohlc : list Index.ohlc_row) (adj : list Index.adj_row) (row : Index.row) :
  In row (joined_frame to_numeric ohlc adj) ->
  exists l r, In l ohlc /\ In r adj /\ Index.o_Date l = Index.a_Date r
              /\ Index.J_Date row = Index.a_J_Date r
              /\ Index.Date row = Some (Index.a_Date r).
Proof.
  unfold joined_frame, merge_inner. intros H.
  apply in_map_iff in H as ([l r] & <- & H).
  apply in_flat_map in H as (l' & Hl & H).
  apply in_map_iff in H as (r' & Heq & H). injection Heq as -> ->.
  apply filter_In in H as [Hr Hd]. apply datetime_eqb_eq in Hd.
  exists l, r. simpl. rewrite Hd. repeat split; assumption.
Qed.

Lemma index_frame_rows (to_numeric : string -> option Py.pyfloat)
      (name s e : string) (ignore_date show_weekday double_date : bool)
      (ohlc : list Index.ohlc_row) (adj : list Index.adj_row) (df : Index.DataFrame) :
  index_frame to_numeric name false ignore_date show_weekday double_date s e adj (inr ohlc)
  = inr df ->
  forall row, In row df ->
  exists l r, In l ohlc /\ In r adj /\ Index.o_Date l = Index.a_Date r
              /\ Index.J_Date row = Index.a_J_Date r
              /\ Index.Date row = if double_date then Some (Index.a_Date r) else None.
Proof.
  unfold index_frame, bind, ret. cbv iota.
  set (sorted := sort_values row_date_le (joined_frame to_numeric ohlc adj)).
  set (kept := if negb ignore_date then filter _ sorted else sorted).
  assert (Hkept : forall x, In x kept -> In x (joined_frame to_numeric ohlc adj)).
  { intros x Hx. apply (sort_values_In row_date_le). unfold kept in Hx.
    destruct (negb ignore_date); [now apply filter_In in Hx | assumption]. }
  destruct kept as [|k0 ks] eqn:Ek; [discriminate|].
  intros H; injection H as <-. intros row Hrow.
  change (In row (filter (fun r => negb (all_missing r))
                    (map (format_row show_weekday double_date) (k0 :: ks)))) in Hrow.
  apply filter_In in Hrow as [Hrow _].
  apply in_map_iff in Hrow as (x & <- & Hx).
  apply Hkept, joined_frame_rows in Hx as (l & r & Hl & Hr & Hd & Hj & HD).
  exists l, r. unfold format_row. simpl. rewrite HD.
  repeat split; assumption || reflexivity.
Qed.

(** C7.  When an index-history request joins the two feeds and returns a
    table, every row of it comes from one OHLC row and one adjusted-close
    row of exactly the same date; so a day missing in either feed has no
    row. *)
Theorem index_join_is_inner
        (to_datetime : string -> result Datetime.date)
        (to_numeric : string -> option Py.pyfloat)
        (index_type s e : string) (ignore_date show_weekday double_date : bool)
        (w w' : World) (df : Index.DataFrame) :
  get_index_history to_datetime to_numeric index_type s e ignore_date false
                    show_weekday double_date w = (inr df, w') ->
  exists web_id adj_response w1 ohlc_response indexB2 adj ohlc,
    assoc (Py.map_chars upper_char index_type) _INDEX_WEB_IDS = Some web_id
    /\ _make_request ("http://cdn.tsetmc.com/api/Index/GetIndexB2History/" ++ web_id)%string w
       = (inr adj_response, w1)
    /\ json adj_response = Some (IndexDoc (Some indexB2))
    /\ adj_close_frame to_datetime indexB2 = inr adj
    /\ _make_request ("http://old.tsetmc.com/tsev2/chart/data/IndexFinancial.aspx?i="
                      ++ web_id ++ "&t=ph")%string w1 = (inr ohlc_response, w')
    /\ ohlc_frame to_datetime (text ohlc_response) = inr ohlc
    /\ (forall row, In row df ->
          exists l r, In l ohlc /\ In r adj /\ Index.o_Date l = Index.a_Date r
                      /\ Index.J_Date row = Index.a_J_Date r
                      /\ Index.Date row
                         = if double_date then Some (Index.a_Date r) else None)
    /\ (forall d, ~ In d (map Index.o_Date ohlc) \/ ~ In d (map Index.a_Date adj) ->
          forall row, In row df -> Index.Date row <> Some d).
Proof.
  unfold get_index_history.
  destruct (assoc _ _INDEX_WEB_IDS) as [web_id|] eqn:Hid; [|discriminate].
  destruct (if negb ignore_date then _ else _) as [|[]]; [discriminate|].
  destruct (_make_request _ w) as [[err|adj_response] w1] eqn:Hreq1.
  { unfold reraise_as_api_error, raise. destruct (is_TSETMCError err); discriminate. }
  destruct (json adj_response) as [[|[indexB2|]]|] eqn:Hjson;
    try (unfold reraise_as_api_error, raise; simpl; discriminate).
  destruct (adj_close_frame to_datetime indexB2) as [err|adj] eqn:Hadj.
  { unfold reraise_as_api_error, raise. destruct (is_TSETMCError err); discriminate. }
  destruct (_make_request _ w1) as [[err|ohlc_response] w2] eqn:Hreq2.
  { unfold reraise_as_api_error, raise. destruct (is_TSETMCError err); discriminate. }
  destruct (ohlc_frame to_datetime (text ohlc_response)) as [err|ohlc] eqn:Hohlc.
  { unfold index_frame, bind, reraise_as_api_error, raise.
    destruct (is_TSETMCError err); discriminate. }
  intros H.
  assert (Hframe : index_frame to_numeric (Py.map_chars upper_char index_type) false
                     ignore_date show_weekday double_date s e adj (inr ohlc) = inr df
                   /\ w2 = w').
  { revert H. unfold reraise_as_api_error.
    destruct (index_frame _ _ _ _ _ _ _ _ _ _) as [err|df'].
    - destruct (is_TSETMCError err); discriminate.
    - intros H; injection H as -> ->. split; reflexivity. }
  destruct Hframe as [Hframe ->].
  pose proof (index_frame_rows _ _ _ _ _ _ _ _ _ _ Hframe) as Hrows.
  exists web_id, adj_response, w1, ohlc_response, indexB2, adj, ohlc.
  repeat split; try assumption.
  intros d Hd row Hrow Heq.
  destruct (Hrows row Hrow) as (l & r & Hl & Hr & Hdate & _ & HD).
  rewrite Heq in HD. destruct double_date; [|discriminate].
  injection HD as ->.
  destruct Hd as [Hd|Hd]; apply Hd.
  - rewrite <- Hdate. now apply in_map.
  - now apply in_map.
Qed.

(** Scenario D: no row for 2024-03-22. *)
Lemma index_join_is_inner_witness :
  fst (get_index_history iso_to_datetime float_to_numeric "CWI" "1403-01-01" "1403-01-10"
         false false false true scenario_D) = inr scenario_D_rows
  /\ map Index.J_Date scenario_D_rows = ["1403-01-01"; "1403-01-02"]
  /\ Forall (fun row => Index.Date row <> Some (Datetime.mkdate 2024 3 22)) scenario_D_rows.
Proof.
  assert (Hdf : fst (get_index_history iso_to_datetime float_to_numeric "CWI" "1403-01-01"
                       "1403-01-10" false false false true scenario_D)
                = inr scenario_D_rows) by (vm_compute; reflexivity).
  split; [exact Hdf|]. split; [reflexivity|].
  apply Forall_forall.
  destruct (index_join_is_inner iso_to_datetime float_to_numeric "CWI"
              "1403-01-01" "1403-01-10" false false true scenario_D
              (snd (get_index_history iso_to_datetime float_to_numeric "CWI" "1403-01-01"
                      "1403-01-10" false false false true scenario_D)) scenario_D_rows)
    as (web_id & r1 & w1 & r2 & indexB2 & adj & ohlc
        & Hid & Hreq1 & Hjson & Hadj & Hreq2 & Hohlc & _ & Habsent).
  - rewrite <- Hdf. apply surjective_pairing.
  - apply Habsent. left.
    vm_compute in Hid. injection Hid as <-.
    vm_compute in Hreq1. injection Hreq1 as <- <-.
    vm_compute in Hreq2. injection Hreq2 as <-.
    vm_compute in Hohlc. injection Hohlc as <-.
    simpl. intros [H|[H|[]]]; discriminate.
Defined.

(** * Further properties *)

Lemma normal_forms_checked : check_dates normal_form_ok = true.
Proof. vm_compute. reflexivity. Qed.

(** ** More on dates *)

Lemma py_int_error (s : string) (e : exn) :
  Py.int s = inl e -> exists msg, e = ValueError msg.
Proof.
  unfold Py.int. destruct (Py.int_literal s); [discriminate|].
  intros H; injection H as <-. eexists; reflexivity.
Qed.

Lemma jdatetime_new_error (y m d : Z) (e : exn) :
  Jdatetime.new y m d = inl e -> exists msg, e = ValueError msg.
Proof.
  unfold Jdatetime.new.
  repeat match goal with
         | |- context [if ?b then _ else _] => destruct b
         end; intros H; try discriminate; injection H as <-; eexists; reflexivity.
Qed.

Lemma validate_error_kind (s field_name : string) (e : exn) :
  validate_jalali_date_field s field_name = inl e -> is_ValidationError e = true.
Proof.
  unfold validate_jalali_date_field.
  destruct (String.eqb s ""); [intros H; injection H as <-; reflexivity|].
  destruct (Py.split "-" (hyphenate (Py.strip s))) as [|ys [|ms [|ds [|]]]];
    try (intros H; injection H as <-; reflexivity).
  unfold bind.
  destruct (Py.int ys) as [e0|y] eqn:Ey.
  { apply py_int_error in Ey as [msg ->]. intros H; injection H as <-; reflexivity. }
  destruct (Py.int ms) as [e0|m] eqn:Em.
  { apply py_int_error in Em as [msg ->]. intros H; injection H as <-; reflexivity. }
  destruct (Py.int ds) as [e0|d] eqn:Ed.
  { apply py_int_error in Ed as [msg ->]. intros H; injection H as <-; reflexivity. }
  destruct ((y <? 1300) || (1450 <? y)); [intros H; injection H as <-; reflexivity|].
  destruct (Jdatetime.new y m d) as [e0|jd] eqn:En.
  { apply jdatetime_new_error in En as [msg ->]. intros H; injection H as <-; reflexivity. }
  discriminate.
Qed.

(** X1.  Whatever text it is given, and under whatever field name,
    [validate_jalali_date] fails with a validation error only. *)
Theorem validate_fails_with_validation_error (s field_name : string) (e : exn) :
  validate_jalali_date_field s field_name = inl e -> is_ValidationError e = true.
Proof. apply validate_error_kind. Qed.

Lemma validate_fails_with_validation_error_witness :
  validate_jalali_date_field "1403-13-01" "start_date"
  = inl (TSETMCValidationError "Invalid start_date: month must be in 1..12"
           (Some "start_date"%string) (Some "1403-13-01"%string))
  /\ is_ValidationError
       (TSETMCValidationError "Invalid start_date: month must be in 1..12"
          (Some "start_date"%string) (Some "1403-13-01"%string)) = true.
Proof.
  split; [reflexivity|].
  apply (validate_fails_with_validation_error "1403-13-01" "start_date"). reflexivity.
Defined.

Lemma validate_format (y m d : Z) :
  1300 <= y <= 1450 -> valid_jalali y m d = true ->
  validate_jalali_date (format_jalali y m d) = inr (format_jalali y m d)
  /\ String.length (format_jalali y m d) = 10%nat.
Proof.
  intros Hy Hv.
  pose proof (check_dates_sound _ normal_forms_checked y m d Hy Hv) as H.
  unfold normal_form_ok in H.
  destruct (validate_jalali_date (format_jalali y m d)) as [|s]; [discriminate|].
  apply andb_prop in H as [H1 H2].
  apply String.eqb_eq in H1. apply Nat.eqb_eq in H2. subst s. now split.
Qed.

(** X2.  What [validate_jalali_date] returns is the ten-character text
    YYYY-MM-DD of a valid Jalali date of the years 1300 to 1450, and it is
    a fixed point: validating it again returns it unchanged. *)
Theorem validate_returns_normal_form (s n : string) :
  validate_jalali_date s = inr n ->
  (exists y m d, n = format_jalali y m d /\ 1300 <= y <= 1450
                 /\ valid_jalali y m d = true)
  /\ String.length n = 10%nat
  /\ validate_jalali_date n = inr n.
Proof.
  intros H.
  destruct (validate_normal_form s n H) as (y & m & d & -> & _ & Hy & Hv).
  destruct (validate_format y m d Hy Hv) as [Hfix Hlen].
  split; [exists y, m, d; repeat split; try assumption; try reflexivity; lia|].
  split; assumption.
Qed.

Lemma validate_returns_normal_form_witness :
  validate_jalali_date " 1403/1/5 " = inr "1403-01-05"
  /\ validate_jalali_date "1403-01-05" = inr "1403-01-05".
Proof.
  split; [reflexivity|].
  apply (validate_returns_normal_form " 1403/1/5 " "1403-01-05"). reflexivity.
Defined.

Lemma convert_of_normalized (s n : string) (g : Datetime.date) :
  validate_jalali_date s = inr n -> validate_jalali_date n = inr n ->
  convert_jalali_to_gregorian n = inr g -> convert_jalali_to_gregorian s = inr g.
Proof.
  intros Hs Hn. unfold convert_jalali_to_gregorian. rewrite Hs, Hn. unfold bind.
  destruct (map_result Py.int (Py.split "-" n)) as [|[|a [|b [|c [|]]]]]; try discriminate.
  destruct (Jdatetime.new a b c) as [|jd]; [discriminate|].
  destruct (Jdatetime.togregorian jd); [discriminate | trivial].
Qed.

Lemma convert_accepted (s n : string) :
  validate_jalali_date s = inr n ->
  exists g, convert_jalali_to_gregorian s = inr g
            /\ convert_gregorian_to_jalali g = inr n.
Proof.
  intros H.
  destruct (validate_normal_form s n H) as (y & m & d & -> & _ & Hy & Hv).
  destruct (validate_format y m d Hy Hv) as [Hfix _].
  pose proof (check_dates_sound _ dates_checked y m d Hy Hv) as Hc.
  apply andb_prop in Hc as [Hc _]. unfold roundtrip_ok in Hc.
  destruct (convert_jalali_to_gregorian (format_jalali y m d)) as [|g] eqn:Hg;
    [discriminate|].
  exists g. split; [exact (convert_of_normalized _ _ _ H Hfix Hg)|].
  destruct (convert_gregorian_to_jalali g) as [|t]; [discriminate|].
  apply String.eqb_eq in Hc. now subst.
Qed.

(** X3.  Every text that [validate_jalali_date] accepts, with whatever
    separators and padding, is converted by [convert_jalali_to_gregorian],
    and [convert_gregorian_to_jalali] takes the result back to the
    normalised text. *)
Theorem accepted_text_roundtrip (s n : string) :
  validate_jalali_date s = inr n ->
  exists g, convert_jalali_to_gregorian s = inr g
            /\ convert_gregorian_to_jalali g = inr n.
Proof. apply convert_accepted. Qed.

Lemma accepted_text_roundtrip_witness :
  exists g, convert_jalali_to_gregorian "1403.1.1" = inr g
            /\ convert_gregorian_to_jalali g = inr "1403-01-01".
Proof. apply (accepted_text_roundtrip "1403.1.1" "1403-01-01"). reflexivity. Defined.

(** X4.  [convert_jalali_to_gregorian] fails exactly on the texts that
    [validate_jalali_date] rejects, and with the same validation error. *)
Theorem convert_fails_as_validate (s : string) (e : exn) :
  convert_jalali_to_gregorian s = inl e <-> validate_jalali_date s = inl e.
Proof.
  split.
  - intros H. destruct (validate_jalali_date s) as [e'|n] eqn:Hv.
    + unfold convert_jalali_to_gregorian in H. rewrite Hv in H. simpl in H. now injection H as ->.
    + destruct (convert_accepted s n Hv) as (g & Hg & _). congruence.
  - intros H. unfold convert_jalali_to_gregorian. now rewrite H.
Qed.

(** ** White space and separators *)

Lemma lstrip_nil_iff (s : string) : Py.lstrip s = "" <-> has_nonspace s = false.
Proof.
  unfold has_nonspace. induction s as [|c s IH]; simpl; [tauto|].
  destruct (Py.is_space c); simpl; [exact IH|]. split; discriminate.
Qed.

Lemma has_nonspace_lstrip (s : string) : has_nonspace (Py.lstrip s) = has_nonspace s.
Proof.
  unfold has_nonspace. induction s as [|c s IH]; simpl; [reflexivity|].
  destruct (Py.is_space c) eqn:E; simpl; [exact IH | now rewrite E].
Qed.

Lemma has_nonspace_rev_onto (s acc : string) :
  has_nonspace (Py.rev_onto s acc) = has_nonspace s || has_nonspace acc.
Proof.
  revert acc; induction s as [|c s IH]; intros acc; simpl; [reflexivity|].
  rewrite IH. unfold has_nonspace. simpl.
  destruct (negb (Py.is_space c)); simpl; [apply orb_true_r|reflexivity].
Qed.

Lemma rev_onto_nil (s acc : string) : Py.rev_onto s acc = "" -> s = "" /\ acc = "".
Proof.
  revert acc; induction s as [|c s IH]; intros acc; simpl; [tauto|].
  intros H. apply IH in H as [_ H]. discriminate.
Qed.

Lemma strip_nil_iff (s : string) : Py.strip s = "" <-> has_nonspace s = false.
Proof.
  unfold Py.strip, Py.rstrip, Py.reverse. split.
  - intros H. apply rev_onto_nil in H as [H _].
    apply lstrip_nil_iff in H. rewrite has_nonspace_rev_onto, orb_false_r in H.
    now rewrite has_nonspace_lstrip in H.
  - intros H.
    assert (Hl : Py.lstrip (Py.rev_onto (Py.lstrip s) "") = "").
    { apply lstrip_nil_iff. rewrite has_nonspace_rev_onto, orb_false_r.
      now rewrite has_nonspace_lstrip. }
    now rewrite Hl.
Qed.

Lemma validate_stock_name_ok_iff (stock : string) :
  _validate_stock_name stock = inr tt <-> has_nonspace stock = true.
Proof.
  unfold _validate_stock_name.
  destruct (String.eqb stock "") eqn:E.
  - apply String.eqb_eq in E. subst. split; discriminate.
  - destruct (String.length (Py.strip stock) =? 0)%nat eqn:El.
    + apply Nat.eqb_eq in El.
      assert (Py.strip stock = "") by (destruct (Py.strip stock); [reflexivity|discriminate]).
      apply strip_nil_iff in H. rewrite H. split; discriminate.
    + apply Nat.eqb_neq in El.
      destruct (has_nonspace stock) eqn:Hn; [split; reflexivity|].
      apply strip_nil_iff in Hn. rewrite Hn in El. now elim El.
Qed.

Lemma validate_stock_name_error_kind (stock : string) (e : exn) :
  _validate_stock_name stock = inl e -> is_ValidationError e = true.
Proof.
  unfold _validate_stock_name. destruct (String.eqb stock "");
    [intros H; injection H as <-; reflexivity|].
  destruct (String.length (Py.strip stock) =? 0)%nat;
    [intros H; injection H as <-; reflexivity | discriminate].
Qed.

(** X5.  [_validate_stock_name] accepts a name exactly when it has a
    character that is no white space, and otherwise fails with a
    validation error. *)
Theorem stock_name_accepted_iff (stock : string) :
  (_validate_stock_name stock = inr tt
   <-> exists c, In c (list_ascii_of_string stock) /\ Py.is_space c = false)
  /\ (forall e, _validate_stock_name stock = inl e -> is_ValidationError e = true).
Proof.
  split; [|intros e; apply validate_stock_name_error_kind].
  rewrite validate_stock_name_ok_iff. unfold has_nonspace. rewrite existsb_exists.
  split; intros (c & Hc & H); exists c; split; trivial.
  - now apply negb_true_iff in H.
  - now apply negb_true_iff.
Qed.

Lemma is_space_hyphen (c : ascii) :
  Py.is_space (if Ascii.eqb c "/" || Ascii.eqb c "." then "-"%char else c) = Py.is_space c.
Proof.
  destruct (Ascii.eqb c "/") eqn:E1; [apply Ascii.eqb_eq in E1; now subst|].
  destruct (Ascii.eqb c ".") eqn:E2; [apply Ascii.eqb_eq in E2; now subst|].
  reflexivity.
Qed.

Section MapChars.

Variable f : ascii -> ascii.
Hypothesis f_space : forall c, Py.is_space (f c) = Py.is_space c.

Lemma lstrip_map_chars (s : string) :
  Py.lstrip (Py.map_chars f s) = Py.map_chars f (Py.lstrip s).
Proof.
  induction s as [|c s IH]; simpl; [reflexivity|].
  rewrite f_space. destruct (Py.is_space c); [exact IH | reflexivity].
Qed.

Lemma rev_onto_map_chars (s acc : string) :
  Py.rev_onto (Py.map_chars f s) (Py.map_chars f acc) = Py.map_chars f (Py.rev_onto s acc).
Proof.
  revert acc; induction s as [|c s IH]; intros acc; simpl; [reflexivity|].
  now rewrite <- IH.
Qed.

Lemma reverse_map_chars (s : string) :
  Py.reverse (Py.map_chars f s) = Py.map_chars f (Py.reverse s).
Proof. unfold Py.reverse. apply (rev_onto_map_chars s ""). Qed.

Lemma strip_map_chars (s : string) :
  Py.strip (Py.map_chars f s) = Py.map_chars f (Py.strip s).
Proof.
  unfold Py.strip, Py.rstrip.
  now rewrite lstrip_map_chars, reverse_map_chars, lstrip_map_chars, reverse_map_chars.
Qed.

End MapChars.

Lemma hyphenate_idempotent (s : string) : hyphenate (hyphenate s) = hyphenate s.
Proof.
  unfold hyphenate. induction s as [|c s IH]; simpl; [reflexivity|].
  rewrite IH. f_equal.
  destruct (Ascii.eqb c "/") eqn:E1; [reflexivity|].
  destruct (Ascii.eqb c ".") eqn:E2; [reflexivity|].
  simpl. now rewrite E1, E2.
Qed.

Lemma hyphenate_nil (s : string) : String.eqb (hyphenate s) "" = String.eqb s "".
Proof. destruct s; reflexivity. Qed.

Lemma validate_hyphenated (s field_name : string) :
  validate_jalali_date_field (hyphenate s) field_name
  = validate_jalali_date_field s field_name.
Proof.
  unfold validate_jalali_date_field.
  rewrite hyphenate_nil.
  destruct (String.eqb s "") eqn:E.
  - apply String.eqb_eq in E. now subst.
  - assert (H : hyphenate (Py.strip (hyphenate s)) = hyphenate (Py.strip s)).
    { unfold hyphenate at 2. rewrite (strip_map_chars _ is_space_hyphen).
      apply hyphenate_idempotent. }
    cbv zeta. now rewrite H.
Qed.

(** X6.  The separators are interchangeable: two texts that differ only in
    which of [-], [/] and [.] they use get the same result from
    [validate_jalali_date], the same normalised date or the same error. *)
Theorem separators_interchangeable (s1 s2 field_name : string) :
  hyphenate s1 = hyphenate s2 ->
  validate_jalali_date_field s1 field_name = validate_jalali_date_field s2 field_name.
Proof.
  intros H.
  rewrite <- (validate_hyphenated s1), <- (validate_hyphenated s2). now rewrite H.
Qed.

Lemma separators_interchangeable_witness :
  validate_jalali_date_field "1403/13.01" "date"
  = validate_jalali_date_field "1403.13-01" "date".
Proof. apply (separators_interchangeable "1403/13.01" "1403.13-01" "date"). reflexivity. Defined.

(** ** More on ranges *)

Lemma list_gt_date_after (y1 m1 d1 y2 m2 d2 : Z) :
  Py.list_gt [y1; m1; d1] [y2; m2; d2] = true -> date_after y1 m1 d1 y2 m2 d2.
Proof.
  unfold date_after. simpl.
  destruct (y2 <? y1) eqn:Ey; [apply Z.ltb_lt in Ey; now left|].
  destruct (y1 <? y2) eqn:Ey'; [discriminate|].
  apply Z.ltb_ge in Ey, Ey'.
  destruct (m2 <? m1) eqn:Em; [apply Z.ltb_lt in Em; intros _; right; split; [lia|now left]|].
  destruct (m1 <? m2) eqn:Em'; [discriminate|].
  apply Z.ltb_ge in Em, Em'.
  destruct (d2 <? d1) eqn:Ed; [|destruct (d1 <? d2); discriminate].
  apply Z.ltb_lt in Ed. intros _. right. split; [lia|]. right. split; lia.
Qed.

Lemma validate_date_range_error_kind (s e : string) (err : exn) :
  _validate_date_range s e = inl err -> is_ValidationError err = true.
Proof.
  unfold _validate_date_range, bind, ret.
  destruct (validate_jalali_date s) as [e1|n1] eqn:H1.
  { pose proof (validate_error_kind _ _ _ H1) as K. destruct e1; try discriminate.
    destruct (negb _); [destruct (Py.contains s _)|];
      intros H; injection H as <-; reflexivity. }
  destruct (validate_jalali_date e) as [e2|n2] eqn:H2.
  { pose proof (validate_error_kind _ _ _ H2) as K. destruct e2; try discriminate.
    destruct (negb _); [destruct (Py.contains s _)|];
      intros H; injection H as <-; reflexivity. }
  destruct (validate_normal_form _ _ H1) as (y1 & m1 & d1 & -> & _ & Hy1 & Hv1).
  destruct (validate_normal_form _ _ H2) as (y2 & m2 & d2 & -> & _ & Hy2 & Hv2).
  rewrite (parts_of_format _ _ _ Hy1 Hv1), (parts_of_format _ _ _ Hy2 Hv2).
  destruct (Py.list_gt _ _); [|discriminate].
  intros H; injection H as <-; reflexivity.
Qed.

(** X7.  [_validate_date_range] accepts exactly the pairs of texts that
    both normalise to a date and whose start is not after the end; every
    other pair fails with a validation error. *)
Theorem date_range_accepted_iff (s e : string) :
  (_validate_date_range s e = inr tt
   <-> exists y1 m1 d1 y2 m2 d2,
         normalizes_to s y1 m1 d1 /\ normalizes_to e y2 m2 d2
         /\ ~ date_after y1 m1 d1 y2 m2 d2)
  /\ (forall err, _validate_date_range s e = inl err -> is_ValidationError err = true).
Proof.
  split; [|intros err; apply validate_date_range_error_kind].
  split.
  - intros H.
    destruct (validate_jalali_date s) as [e1|n1] eqn:H1.
    { unfold _validate_date_range, bind in H. rewrite H1 in H.
      destruct e1; try discriminate.
      destruct (negb _); [destruct (Py.contains s _)|]; discriminate. }
    destruct (validate_jalali_date e) as [e2|n2] eqn:H2.
    { unfold _validate_date_range, bind in H. rewrite H1, H2 in H.
      destruct e2; try discriminate.
      destruct (negb _); [destruct (Py.contains s _)|]; discriminate. }
    destruct (validate_normal_form _ _ H1) as (y1 & m1 & d1 & -> & N1).
    destruct (validate_normal_form _ _ H2) as (y2 & m2 & d2 & -> & N2).
    exists y1, m1, d1, y2, m2, d2. split; [exact N1|]. split; [exact N2|].
    intros Hafter. rewrite (validate_date_range_normalized _ _ _ _ _ _ _ _ N1 N2) in H.
    rewrite (date_after_list_gt _ _ _ _ _ _ Hafter) in H. discriminate.
  - intros (y1 & m1 & d1 & y2 & m2 & d2 & N1 & N2 & Hnot).
    rewrite (validate_date_range_normalized _ _ _ _ _ _ _ _ N1 N2).
    destruct (Py.list_gt _ _) eqn:E; [|reflexivity].
    elim Hnot. now apply list_gt_date_after.
Qed.

(** ** More on the transport *)

Lemma attempt_result_error (timeout : Z) (o : http_outcome) (e : exn) :
  attempt_result timeout o = inl e -> is_transport_error e = true.
Proof.
  unfold attempt_result. destruct o as [r| | |].
  - destruct (status_code r =? 429); [intros H; injection H as <-; reflexivity|].
    destruct (ok r); [discriminate | intros H; injection H as <-; reflexivity].
  - intros H; injection H as <-; reflexivity.
  - intros H; injection H as <-; reflexivity.
  - intros H; injection H as <-; reflexivity.
Qed.

Lemma attempt_result_ok (timeout : Z) (o : http_outcome) (r : response) :
  attempt_result timeout o = inr r ->
  o = Responded r /\ ok r = true /\ status_code r <> 429.
Proof.
  unfold attempt_result. destruct o as [r'| | |]; try discriminate.
  destruct (status_code r' =? 429) eqn:E; [discriminate|].
  destruct (ok r') eqn:Eok; [|discriminate].
  intros H; injection H as <-. apply Z.eqb_neq in E. now repeat split.
Qed.

Lemma make_request_world (url : string) (w : World) :
  network (snd (_make_request url w)) = network w
  /\ (calls w < calls (snd (_make_request url w)) <= calls w + 4)%nat
  /\ slept (snd (_make_request url w))
     = slept w ++ firstn (calls (snd (_make_request url w)) - calls w - 1)
                         [1%Q; 2%Q; 4%Q].
Proof.
  rewrite make_request_attempts.
  destruct (attempt_at url w 0); [destruct (attempt_at url w 1);
    [destruct (attempt_at url w 2)|]|];
    unfold after_attempts; simpl;
    (split; [reflexivity|]); (split; [lia|]);
    match goal with
    | |- context [(?c + ?k - ?c - 1)%nat] =>
        replace (c + k - c - 1)%nat with (k - 1)%nat by lia
    end; reflexivity.
Qed.

(** X8.  One call of [_make_request] makes at least one and at most four
    requests, sleeps one second less often than it asks, for 1, 2 and 4
    seconds in this order (seven seconds at most), and leaves the upstream
    as it is. *)
Theorem make_request_effort (url : string) (w : World) :
  network (snd (_make_request url w)) = network w
  /\ (calls w < calls (snd (_make_request url w)) <= calls w + 4)%nat
  /\ slept (snd (_make_request url w))
     = slept w ++ firstn (calls (snd (_make_request url w)) - calls w - 1)
                         [1%Q; 2%Q; 4%Q].
Proof. apply make_request_world. Qed.

(** X9.  When [_make_request] fails, it is with a network error, an API
    error or the rate-limit error, and four requests have been made. *)
Theorem make_request_raises_transport_errors (url : string) (w : World) (e : exn) :
  fst (_make_request url w) = inl e ->
  is_transport_error e = true
  /\ calls (snd (_make_request url w)) = (calls w + 4)%nat.
Proof.
  rewrite make_request_attempts.
  destruct (attempt_at url w 0); [|discriminate].
  destruct (attempt_at url w 1); [|discriminate].
  destruct (attempt_at url w 2); [|discriminate].
  simpl. intros H. split; [|reflexivity].
  unfold attempt_at in H. now apply attempt_result_error in H.
Qed.

Lemma make_request_raises_transport_errors_witness :
  is_transport_error (TSETMCRateLimitError "Rate limit exceeded" None None) = true
  /\ calls (snd (_make_request "u" always_429)) = 4%nat.
Proof.
  apply (make_request_raises_transport_errors "u" always_429). reflexivity.
Defined.

Ltac exists_at k :=
  split; [assumption|]; split; [assumption|]; exists k;
  split; [lia|]; split; [assumption|]; split; [simpl; lia|];
  let j := fresh "j" in let Hj := fresh "Hj" in
  intros j Hj; destruct j as [|[|[|j]]]; try lia; eauto.


(** X10.  A response that [_make_request] returns is one the upstream
    gave to one of the four attempts, flagged ok and not a 429; every
    attempt before it had failed. *)
Theorem make_request_returns_accepted_response (url : string) (w : World) (r : response) :
  fst (_make_request url w) = inr r ->
  ok r = true /\ status_code r <> 429
  /\ exists k, (k < 4)%nat
               /\ network w (calls w + k) url = Responded r
               /\ calls (snd (_make_request url w)) = (calls w + k + 1)%nat
               /\ forall j, (j < k)%nat -> exists e, attempt_at url w j = inl e.
Proof.
  rewrite make_request_attempts.
  destruct (attempt_at url w 0) as [e0|r0] eqn:E0;
    [destruct (attempt_at url w 1) as [e1|r1] eqn:E1;
     [destruct (attempt_at url w 2) as [e2|r2] eqn:E2|]|];
    simpl; intros H; try (injection H as ->);
    match goal with
    | E : attempt_at url w ?k = inr r |- _ =>
        apply attempt_result_ok in E as (Ho & Hok & Hc); exists_at k
    | _ => apply attempt_result_ok in H as (Ho & Hok & Hc); exists_at 3%nat
    end.
Qed.

Lemma make_request_returns_accepted_response_witness :
  ok (ok_response "body" None) = true /\ status_code (ok_response "body" None) <> 429.
Proof.
  destruct (make_request_returns_accepted_response "u" error_500_then_ok
              (ok_response "body" None)) as (Hok & Hcode & _).
  - reflexivity.
  - split; assumption.
Defined.

Section RetryProperties.

Context {A : Type}.
Variable max_retries : Z.
Variable delay backoff_factor : Q.
Variable exceptions : exn -> bool.
Variable func : World -> result A * World.

(** X11.  An exception outside the [exceptions] to retry on leaves
    [retry_on_failure] at once: the function has run once and nothing has
    been slept. *)
Theorem retry_passes_other_exceptions (w w1 : World) (e : exn) :
  0 <= max_retries -> func w = (inl e, w1) -> exceptions e = false ->
  retry_on_failure max_retries delay backoff_factor exceptions func w = (inl e, w1).
Proof.
  intros Hm Hf He. unfold retry_on_failure.
  replace (Z.to_nat (max_retries + 1)) with (S (Z.to_nat max_retries)) by lia.
  simpl. now rewrite Hf, He.
Qed.

(** X12.  With a negative [max_retries] the function is never run: the
    wrapper raises the [TypeError] of [raise None]. *)
Theorem retry_negative_never_runs (w : World) :
  max_retries < 0 ->
  retry_on_failure max_retries delay backoff_factor exceptions func w
  = (inl (TypeError "exceptions must derive from BaseException"), w).
Proof.
  intros Hm. unfold retry_on_failure.
  replace (Z.to_nat (max_retries + 1)) with 0%nat by lia. reflexivity.
Qed.


Hypothesis always_fails : forall w, exists e, fst (func w) = inl e /\ exceptions e = true.
Hypothesis keeps_slept : forall w, slept (snd (func w)) = slept w.



End RetryProperties.

Lemma retry_passes_other_exceptions_witness :
  retry_on_failure 3 1 2 is_NetworkError (failing_with (ValueError "bad")) always_429
  = (inl (ValueError "bad"), always_429).
Proof.
  apply (retry_passes_other_exceptions 3 1 2 is_NetworkError
           (failing_with (ValueError "bad")) always_429 always_429 (ValueError "bad"));
    [lia | reflexivity | reflexivity].
Defined.

Lemma retry_negative_never_runs_witness :
  retry_on_failure (-1) 1 2 (fun _ => true) (_make_request_wrapped default_timeout "u")
    always_429
  = (inl (TypeError "exceptions must derive from BaseException"), always_429).
Proof.
  apply (retry_negative_never_runs (-1) 1 2 (fun _ => true)
           (_make_request_wrapped default_timeout "u") always_429).
  lia.
Defined.


(** ** More on the parsers *)

Lemma parse_price_line_appended (line : string) (r : Price.record) :
  parse_price_line line = Appended r ->
  (9 <= List.length (Py.split "," line))%nat
  /\ String.length (field (Py.split "," line) 0) = 8%nat
  /\ Py.strip line <> "".
Proof.
  unfold parse_price_line.
  destruct (String.eqb (Py.strip line) "") eqn:E; [discriminate|].
  destruct (9 <=? List.length (Py.split "," line))%nat eqn:E9; [|discriminate].
  destruct (String.length (field (Py.split "," line) 0) =? 8)%nat eqn:E8; [|discriminate].
  intros _. apply Nat.leb_le in E9. apply Nat.eqb_eq in E8.
  apply String.eqb_neq in E. now repeat split.
Qed.

Lemma parse_price_lines_in (lines : list string) (records : Price.DataFrame)
      (r : Price.record) :
  parse_price_lines lines = Some records -> In r records ->
  exists line, In line lines /\ parse_price_line line = Appended r.
Proof.
  revert records; induction lines as [|line rest IH]; intros records; simpl.
  - intros H; injection H as <-. intros [].
  - destruct (parse_price_line line) as [|r0|e] eqn:E.
    + intros H Hin. destruct (IH _ H Hin) as (l & Hl & Hp). eauto.
    + destruct (parse_price_lines rest) as [rs|]; [|discriminate].
      simpl. intros H; injection H as <-. intros [<-|Hin]; [eauto|].
      destruct (IH _ eq_refl Hin) as (l & Hl & Hp). eauto.
    + discriminate.
Qed.

Lemma parse_price_lines_length (lines : list string) (records : Price.DataFrame) :
  parse_price_lines lines = Some records ->
  (List.length records <= List.length lines)%nat.
Proof.
  revert records; induction lines as [|line rest IH]; intros records; simpl.
  - intros H; injection H as <-. simpl. lia.
  - destruct (parse_price_line line).
    + intros H. apply IH in H. lia.
    + destruct (parse_price_lines rest) as [rs|]; [|discriminate].
      simpl. intros H; injection H as <-. simpl. specialize (IH _ eq_refl). lia.
    + discriminate.
Qed.

(** X14.  Every record of the price-history parser comes from one
    non-blank line of the text that has at least nine fields and an
    eight-character first field; there are never more records than
    lines. *)
Theorem price_records_come_from_lines (response_text : string) :
  (forall r, In r (_parse_price_response response_text) ->
     exists line,
       In line (Py.split LF (Py.strip response_text))
       /\ parse_price_line line = Appended r
       /\ (9 <= List.length (Py.split "," line))%nat
       /\ String.length (field (Py.split "," line) 0) = 8%nat
       /\ Py.strip line <> "")
  /\ (List.length (_parse_price_response response_text)
      <= List.length (Py.split LF (Py.strip response_text)))%nat.
Proof.
  unfold _parse_price_response.
  destruct (parse_price_lines (Py.split LF (Py.strip response_text))) as [records|] eqn:E.
  - split.
    + intros r Hin. destruct (parse_price_lines_in _ _ r E Hin) as (line & Hl & Hp).
      exists line. split; [assumption|]. split; [assumption|].
      now apply parse_price_line_appended in Hp.
    + now apply parse_price_lines_length.
  - split; [intros r []|simpl; lia].
Qed.

Lemma parse_ri_line_as_price (line : string) :
  parse_price_line line
  = match parse_ri_line line with
    | Ri.Skipped => Skipped
    | Ri.Appended r => Appended (ri_as_price r)
    | Ri.Escaped e => Escaped e
    end.
Proof.
  unfold parse_price_line, parse_ri_line.
  destruct (String.eqb (Py.strip line) ""); [reflexivity|].
  destruct (9 <=? List.length (Py.split "," line))%nat; [|reflexivity].
  destruct (String.length (field (Py.split "," line) 0) =? 8)%nat; [|reflexivity].
  cbv zeta. unfold bind.
  destruct (Py.int _) as [e|y]; [destruct e; reflexivity|].
  destruct (Py.int _) as [e|m]; [destruct e; reflexivity|].
  destruct (Py.int _) as [e|d]; [destruct e; reflexivity|].
  destruct (Jdatetime.new y m d) as [e|jd]; [destruct e; reflexivity|].
  destruct (safe_int_conversion _) as [e|c]; [destruct e; reflexivity|].
  destruct (safe_int_conversion _) as [e|v]; [destruct e; reflexivity|].
  destruct (safe_int_conversion _) as [e|u]; [destruct e; reflexivity|].
  reflexivity.
Qed.

Lemma parse_ri_lines_as_price (lines : list string) :
  parse_price_lines lines = option_map (map ri_as_price) (parse_ri_lines lines).
Proof.
  induction lines as [|line rest IH]; simpl; [reflexivity|].
  rewrite parse_ri_line_as_price.
  destruct (parse_ri_line line); [assumption| |reflexivity].
  rewrite IH. now destruct (parse_ri_lines rest).
Qed.

(** X15.  The return-index parser reads a text exactly as the
    price-history parser does: the same rows are kept and dropped and the
    same values are read, under the [RI_] column names. *)
Theorem ri_parser_agrees_with_price_parser (response_text : string) :
  map ri_as_price (_parse_ri_response response_text)
  = _parse_price_response response_text.
Proof.
  unfold _parse_ri_response, _parse_price_response.
  rewrite parse_ri_lines_as_price.
  now destruct (parse_ri_lines (Py.split LF (Py.strip response_text))).
Qed.

(** X16.  [safe_int_conversion] raises exactly when the text reads as an
    infinite float (as [inf] or [1e400] do), and then it is the
    [OverflowError]; every other text gives a value or [None]. *)
Theorem safe_int_raises_on_infinity (value : string) (e : exn) :
  safe_int_conversion value = inl e
  <-> (exists neg, Py.float_literal value = Some (Py.FInf neg))
      /\ e = OverflowError "cannot convert float infinity to integer".
Proof.
  unfold safe_int_conversion, Py.float, bind, ret, raise.
  destruct (String.eqb value "" || String.eqb value "N/A") eqn:E.
  - apply orb_prop in E as [E|E]; apply String.eqb_eq in E; subst; simpl.
    + split; [discriminate|]. intros [[neg H] _]. discriminate.
    + split; [discriminate|]. intros [[neg H] _]. vm_compute in H. discriminate.
  - destruct (Py.float_literal value) as [[neg m ex|neg|]|]; simpl.
    + split; [discriminate|]. intros [[n H] _]. discriminate.
    + split.
      * intros H; injection H as <-. split; [eauto|reflexivity].
      * intros [_ ->]. reflexivity.
    + split; [discriminate|]. intros [[n H] _]. discriminate.
    + split; [discriminate|]. intros [[n H] _]. discriminate.
Qed.

(** X17.  [get_history] fails with errors of the package only, whatever
    its body raises; and a stock name without a visible character is
    refused with a validation error before the body runs, also when
    [ignore_date] is set. *)
Theorem get_history_errors
        (DF : Type) (body : World -> result DF * World)
        (stock s e : string) (ignore_date : bool) (w : World) :
  (forall err, fst (get_history body stock s e ignore_date w) = inl err ->
               is_TSETMCError err = true)
  /\ (has_nonspace stock = false ->
      exists err, get_history body stock s e ignore_date w = (inl err, w)
                  /\ is_ValidationError err = true).
Proof.
  unfold get_history. split.
  - intros err.
    destruct (_validate_stock_name stock) as [e0|[]] eqn:Hs.
    { simpl. intros H; injection H as <-.
      apply validate_stock_name_error_kind in Hs. now destruct e0. }
    destruct (if negb ignore_date then _ else _) as [e0|[]] eqn:Hr.
    { simpl. intros H; injection H as <-.
      destruct ignore_date; [discriminate|]. simpl in Hr.
      apply validate_date_range_error_kind in Hr. now destruct e0. }
    destruct (body w) as [[e0|df] w1]; simpl; [|discriminate].
    destruct (is_TSETMCError e0) eqn:K; intros H; injection H as <-;
      [assumption | reflexivity].
  - intros Hn.
    destruct (_validate_stock_name stock) as [e0|[]] eqn:Hs.
    + exists e0. split; [reflexivity|].
      now apply validate_stock_name_error_kind in Hs.
    + apply validate_stock_name_ok_iff in Hs. congruence.
Qed.

(** ** More on the intraday trades *)

Lemma reraise_error_kind {A : Type} (message : string) (r : result A) (e : exn) :
  reraise_as_api_error message r = inl e -> is_TSETMCError e = true.
Proof.
  unfold reraise_as_api_error. destruct r as [e0|a]; [|discriminate].
  destruct (is_TSETMCError e0) eqn:K; intros H; injection H as <-;
    [assumption | reflexivity].
Qed.

Lemma reraise_value {A : Type} (message : string) (r : result A) (a : A) :
  reraise_as_api_error message r = inr a -> r = inr a.
Proof.
  unfold reraise_as_api_error, raise, ret. destruct r as [e0|a0]; [|trivial].
  destruct (is_TSETMCError e0); discriminate.
Qed.

Lemma validation_is_package_error (e : exn) :
  is_ValidationError e = true -> is_TSETMCError e = true.
Proof. now destruct e. Qed.

Lemma trading_days_loop_days (items : list string) (s e : string) (days : list string) :
  trading_days_loop items s e = inr days ->
  (List.length days <= List.length items)%nat
  /\ forall day, In day days ->
       Py.str_le s day = true /\ Py.str_le day e = true
       /\ exists item g j,
            In item items /\ item <> ""
            /\ strptime_Ymd (field (Py.split "@" item) 0) = inr g
            /\ Jdatetime.fromgregorian g = inr j
            /\ day = Jdatetime.strftime_Y_m_d j.
Proof.
  revert days. induction items as [|item rest IH]; intros days; simpl.
  - intros H; injection H as <-. split; [simpl; lia | intros day []].
  - destruct (String.eqb item "") eqn:E.
    + intros H. destruct (IH _ H) as [Hl Hd]. split; [lia|].
      intros day Hin. destruct (Hd day Hin) as (H1 & H2 & it & g & j & Hit & K).
      repeat split; trivial. exists it, g, j. split; [now right | exact K].
    + apply String.eqb_neq in E. unfold bind, ret.
      destruct (strptime_Ymd _) as [e0|g] eqn:Hg; [discriminate|].
      destruct (Jdatetime.fromgregorian g) as [e0|j] eqn:Hj; [discriminate|].
      destruct (trading_days_loop rest s e) as [e0|days0]; [discriminate|].
      destruct (IH _ eq_refl) as [Hl Hd].
      assert (Hrest : forall day, In day days0 ->
                Py.str_le s day = true /\ Py.str_le day e = true
                /\ exists item0 g0 j0,
                     In item0 (item :: rest) /\ item0 <> ""
                     /\ strptime_Ymd (field (Py.split "@" item0) 0) = inr g0
                     /\ Jdatetime.fromgregorian g0 = inr j0
                     /\ day = Jdatetime.strftime_Y_m_d j0).
      { intros day Hin. destruct (Hd day Hin) as (H1 & H2 & it & g0 & j0 & Hit & K).
        repeat split; trivial. exists it, g0, j0. split; [now right | exact K]. }
      destruct (Py.str_le s _ && Py.str_le _ e) eqn:Hin;
        intros H; injection H as <-.
      * split; [simpl; lia|]. intros day [<-|Hd'].
        -- apply andb_prop in Hin as [H1 H2]. repeat split; trivial.
           exists item, g, j. repeat split; trivial. now left.
        -- now apply Hrest.
      * split; [lia | exact Hrest].
Qed.

(** X18.  The days [_get_trading_days] returns lie between the start and
    the end text (in text order); each is the Jalali date of a non-empty
    item of the listing, in the order of the listing, so there are never
    more days than items. *)
Theorem trading_days_within_range (web_id s e : string) (w : World) (days : list string) :
  fst (_get_trading_days web_id s e w) = inr days ->
  exists response,
    fst (_make_request ("http://old.tsetmc.com/tsev2/data/InstTradeHistory.aspx?i="
                        ++ web_id ++ "&Top=999999&A=0")%string w) = inr response
    /\ (List.length days <= List.length (Py.split ";" (text response)))%nat
    /\ forall day, In day days ->
         Py.str_le s day = true /\ Py.str_le day e = true
         /\ exists item g j,
              In item (Py.split ";" (text response)) /\ item <> ""
              /\ strptime_Ymd (field (Py.split "@" item) 0) = inr g
              /\ Jdatetime.fromgregorian g = inr j
              /\ day = Jdatetime.strftime_Y_m_d j.
Proof.
  unfold _get_trading_days.
  destruct (_make_request _ w) as [[e0|response] w1]; simpl; [discriminate|].
  intros H. exists response. split; [reflexivity|].
  now apply trading_days_loop_days.
Qed.

Lemma trading_days_within_range_witness :
  exists response,
    fst (_make_request ("http://old.tsetmc.com/tsev2/data/InstTradeHistory.aspx?i="
                        ++ "778253364357513" ++ "&Top=999999&A=0")%string
           six_days_latest_first) = inr response
    /\ (List.length ["1403-01-07"; "1403-01-06"; "1403-01-05"; "1403-01-04"]
        <= List.length (Py.split ";" (text response)))%nat.
Proof.
  destruct (trading_days_within_range "778253364357513" "1403-01-04" "1403-01-07"
              six_days_latest_first
              ["1403-01-07"; "1403-01-06"; "1403-01-05"; "1403-01-04"])
    as (response & Hr & Hl & _).
  - vm_compute. reflexivity.
  - exists response. split; assumption.
Defined.

(** X19.  [get_intraday_trades_history] fails with errors of the package
    only, whatever the instrument lookup raises; a stock name or a date
    range that its validator refuses gives a validation error before the
    lookup and before any request. *)
Theorem intraday_errors
        (get_web_id : string -> World -> result string * World)
        (stock s e : string) (w : World) :
  (forall err, fst (get_intraday_trades_history get_web_id stock s e w) = inl err ->
               is_TSETMCError err = true)
  /\ (_validate_stock_name stock <> inr tt \/ _validate_date_range s e <> inr tt ->
      exists err, get_intraday_trades_history get_web_id stock s e w = (inl err, w)
                  /\ is_ValidationError err = true).
Proof.
  unfold get_intraday_trades_history. split.
  - intros err.
    destruct (_validate_stock_name stock) as [e0|[]] eqn:Hs.
    { simpl. intros H; injection H as <-.
      now apply validate_stock_name_error_kind, validation_is_package_error in Hs. }
    destruct (_validate_date_range s e) as [e0|[]] eqn:Hr.
    { simpl. intros H; injection H as <-.
      now apply validate_date_range_error_kind, validation_is_package_error in Hr. }
    destruct (get_web_id stock w) as [[e0|web_id] w1].
    { cbv zeta. cbn [fst]. apply reraise_error_kind. }
    destruct (_get_trading_days web_id s e w1) as [[e0|days] w2].
    { cbv zeta. cbn [fst]. apply reraise_error_kind. }
    destruct days as [|d days]; [simpl; intros H; injection H as <-; reflexivity|].
    destruct (fetch_days _ _ w2) as [results w3].
    destruct (List.concat results); simpl; [|discriminate].
    intros H; injection H as <-; reflexivity.
  - destruct (_validate_stock_name stock) as [e0|[]] eqn:Hs.
    { intros _. exists e0. split; [reflexivity|].
      now apply validate_stock_name_error_kind in Hs. }
    destruct (_validate_date_range s e) as [e0|[]] eqn:Hr.
    { intros _. exists e0. split; [reflexivity|].
      now apply validate_date_range_error_kind in Hr. }
    intros [H|H]; now elim H.
Qed.

Lemma intraday_errors_witness :
  exists err,
    get_intraday_trades_history fixed_web_id "fmli" "1403-01-05" "1403-01-01" scenario_C
    = (inl err, scenario_C)
    /\ is_ValidationError err = true.
Proof.
  apply (intraday_errors fixed_web_id "fmli" "1403-01-05" "1403-01-01" scenario_C).
  right. vm_compute. discriminate.
Defined.

Lemma fetch_day_world (web_id day : string) (w : World) :
  network (snd (_fetch_day_trades_sync web_id day w)) = network w
  /\ (calls w <= calls (snd (_fetch_day_trades_sync web_id day w)) <= calls w + 4)%nat.
Proof.
  unfold _fetch_day_trades_sync.
  destruct (bind _ _) as [e0|g]; [simpl; split; [reflexivity | lia]|].
  cbv zeta.
  match goal with |- context [_make_request ?u w] =>
    pose proof (make_request_world u w) as (Hn & Hc & _);
    destruct (_make_request u w) as [[e0|response] w1]
  end; simpl in *; [split; [assumption | lia]|].
  destruct (json response) as [[[[ncols [|t elements]]|]|]|]; simpl;
    try (split; [assumption | lia]).
  destruct (ncols <? 6)%nat; simpl; (split; [assumption | lia]).
Qed.

Lemma fetch_days_world (web_id : string) (days : list string) (w : World) :
  network (snd (fetch_days web_id days w)) = network w
  /\ (calls w <= calls (snd (fetch_days web_id days w))
      <= calls w + 4 * List.length days)%nat.
Proof.
  revert w. induction days as [|day rest IH]; intros w; simpl.
  - split; [reflexivity | lia].
  - pose proof (fetch_day_world web_id day w) as (Hn & Hc).
    destruct (_fetch_day_trades_sync web_id day w) as [result w1]. simpl in Hn, Hc.
    specialize (IH w1). destruct (fetch_days web_id rest w1) as [results w2].
    simpl in *. destruct IH as (Hn2 & Hc2). split; [congruence | lia].
Qed.

Lemma get_trading_days_world (web_id s e : string) (w : World) :
  network (snd (_get_trading_days web_id s e w)) = network w
  /\ (calls w <= calls (snd (_get_trading_days web_id s e w)) <= calls w + 4)%nat.
Proof.
  unfold _get_trading_days.
  match goal with |- context [_make_request ?u w] =>
    pose proof (make_request_world u w) as (Hn & Hc & _);
    destruct (_make_request u w) as [[e0|response] w1]
  end; simpl in *; (split; [assumption | lia]).
Qed.

(** X20.  After the instrument lookup, [get_intraday_trades_history]
    makes at most 24 requests: up to four for the listing of the trading
    days and up to four for each of at most five days; the upstream is
    left as the lookup left it. *)
Theorem intraday_request_bound
        (get_web_id : string -> World -> result string * World)
        (stock s e : string) (w : World) :
  _validate_stock_name stock = inr tt -> _validate_date_range s e = inr tt ->
  network (snd (get_intraday_trades_history get_web_id stock s e w))
  = network (snd (get_web_id stock w))
  /\ (calls (snd (get_web_id stock w))
      <= calls (snd (get_intraday_trades_history get_web_id stock s e w))
      <= calls (snd (get_web_id stock w)) + 24)%nat.
Proof.
  intros Hs Hr. unfold get_intraday_trades_history. rewrite Hs, Hr.
  destruct (get_web_id stock w) as [[e0|web_id] w1]; cbn [fst snd];
    [split; [reflexivity | lia]|].
  pose proof (get_trading_days_world web_id s e w1) as (Hn & Hc).
  destruct (_get_trading_days web_id s e w1) as [[e0|days] w2]; cbn [fst snd] in *;
    [split; [assumption | lia]|].
  destruct days as [|d days]; [cbn [fst snd]; split; [assumption | lia]|].
  cbv zeta.
  set (ds := firstn _ (d :: days)).
  assert (Hl : (List.length ds <= 5)%nat).
  { unfold ds. rewrite length_firstn. lia. }
  pose proof (fetch_days_world web_id ds w2) as (Hn3 & Hc3).
  destruct (fetch_days web_id ds w2) as [results w3]. cbn [fst snd] in Hn3, Hc3.
  destruct (List.concat results); cbn [fst snd]; (split; [congruence | lia]).
Qed.

Lemma intraday_request_bound_witness :
  (calls (snd (get_intraday_trades_history fixed_web_id "fmli" "1403-01-01" "1403-01-07"
                 scenario_C))
   <= calls (snd (fixed_web_id "fmli" scenario_C)) + 24)%nat.
Proof.
  apply (intraday_request_bound fixed_web_id "fmli" "1403-01-01" "1403-01-07" scenario_C);
    vm_compute; reflexivity.
Defined.

Lemma firstn_subset {A : Type} (x : A) (n : nat) (l : list A) :
  In x (firstn n l) -> In x l.
Proof.
  revert l. induction n as [|n IH]; intros [|y l]; simpl; try tauto.
  intros [H|H]; [now left | right; now apply IH].
Qed.

(** X21.  A table that [get_intraday_trades_history] returns is never
    empty, and every row of it is dated between the start and the end
    text (in text order). *)
Theorem intraday_rows_within_range
        (get_web_id : string -> World -> result string * World)
        (stock s e : string) (w w' : World) (df : Trades.DataFrame) :
  get_intraday_trades_history get_web_id stock s e w = (inr df, w') ->
  df <> []
  /\ forall row, In row df ->
       Py.str_le s (Trades.J_Date row) = true /\ Py.str_le (Trades.J_Date row) e = true.
Proof.
  intros H.
  destruct (intraday_success_inv _ _ _ _ _ _ _ H)
    as (web_id & w1 & days & w2 & Hs & Hr & Hw & Hd & Hne).
  rewrite (intraday_result _ _ _ _ _ _ _ _ _ Hs Hr Hw Hd Hne) in H.
  destruct (List.concat (unit_frames web_id (firstn 5 days) w2)) as [|r0 rs] eqn:Hc;
    [discriminate|].
  injection H as <- _. split; [discriminate|].
  intros row Hin. rewrite <- Hc in Hin. apply unit_frames_rows in Hin.
  apply firstn_subset in Hin.
  unfold _get_trading_days in Hd.
  destruct (_make_request _ w1) as [[e0|response] w1']; [discriminate|].
  injection Hd as Hd _.
  destruct (trading_days_loop_days _ _ _ _ Hd) as [_ K].
  destruct (K _ Hin) as (H1 & H2 & _). now split.
Qed.

Lemma intraday_rows_within_range_witness :
  Forall (fun row => Py.str_le "1403-01-01" (Trades.J_Date row) = true
                     /\ Py.str_le (Trades.J_Date row) "1403-01-10" = true)
         [ Trades.mk_row "1403-01-01" "09:00:00" 10 100;
           Trades.mk_row "1403-01-02" "09:00:00" 10 100;
           Trades.mk_row "1403-01-05" "09:00:00" 10 100;
           Trades.mk_row "1403-01-06" "09:00:00" 10 100 ].
Proof.
  apply Forall_forall.
  apply (intraday_rows_within_range fixed_web_id "stock" "1403-01-01" "1403-01-10"
           scenario_C
           (snd (get_intraday_trades_history fixed_web_id "stock" "1403-01-01"
                   "1403-01-10" scenario_C))).
  vm_compute; reflexivity.
Defined.

(** ** More on the index history *)

Section IndexProperties.

Variable to_datetime : string -> result Datetime.date.
Variable to_numeric : string -> option Py.pyfloat.


Lemma index_success_inv
      (index_type s e : string) (ignore_date just_adj_close show_weekday double_date : bool)
      (w w' : World) (df : Index.DataFrame) :
  get_index_history to_datetime to_numeric index_type s e ignore_date just_adj_close
    show_weekday double_date w = (inr df, w') ->
  exists name adj ohlc,
    index_frame to_numeric name just_adj_close ignore_date show_weekday double_date
      s e adj ohlc = inr df.
Proof.
  unfold get_index_history.
  destruct (assoc _ _) as [id|]; [|discriminate].
  destruct (if negb ignore_date then _ else _) as [e0|[]]; [discriminate|].
  cbv zeta.
  destruct (_make_request _ w) as [[e0|r1] w1];
    [intros H; apply (f_equal fst) in H; cbn [fst] in H;
     apply reraise_value in H; discriminate|].
  destruct (match json r1 with Some (IndexDoc (Some indexB2)) => _ | _ => _ end)
    as [e0|adj];
    [intros H; apply (f_equal fst) in H; cbn [fst] in H;
     apply reraise_value in H; discriminate|].
  destruct just_adj_close.
  - intros H. apply (f_equal fst) in H. cbn [fst] in H.
    apply reraise_value in H. eauto.
  - destruct (_make_request _ w1) as [[e0|r2] w2];
      [intros H; apply (f_equal fst) in H; cbn [fst] in H;
       apply reraise_value in H; discriminate|].
    intros H. apply (f_equal fst) in H. cbn [fst] in H.
    apply reraise_value in H. eauto.
Qed.


(** X23.  [get_index_history] fails with errors of the package only: a
    validation error, or what the transport raised, or a data error, or
    the API error that stands for everything else (a malformed body, a
    date pandas cannot read). *)
Theorem index_errors_are_package_errors
        (index_type s e : string) (ignore_date just_adj_close show_weekday double_date : bool)
        (w : World) (err : exn) :
  fst (get_index_history to_datetime to_numeric index_type s e ignore_date just_adj_close
         show_weekday double_date w) = inl err ->
  is_TSETMCError err = true.
Proof.
  unfold get_index_history.
  destruct (assoc _ _) as [id|]; [|intros H; injection H as <-; reflexivity].
  destruct (if negb ignore_date then _ else _) as [e0|[]] eqn:Hr.
  { cbn [fst]. intros H; injection H as <-.
    destruct ignore_date; [discriminate|]. simpl in Hr.
    now apply validate_date_range_error_kind, validation_is_package_error in Hr. }
  cbv zeta.
  destruct (_make_request _ w) as [[e0|r1] w1]; [cbn [fst]; apply reraise_error_kind|].
  destruct (match json r1 with Some (IndexDoc (Some indexB2)) => _ | _ => _ end)
    as [e0|adj]; [cbn [fst]; apply reraise_error_kind|].
  destruct just_adj_close; [cbn [fst]; apply reraise_error_kind|].
  destruct (_make_request _ w1) as [[e0|r2] w2]; cbn [fst]; apply reraise_error_kind.
Qed.

(** X24.  [get_index_history] makes no request when the index type is
    unknown or the checked date range is refused, at most four when only
    the adjusted close is asked for, and at most eight otherwise; it
    leaves the upstream as it is. *)
Theorem index_request_bound
        (index_type s e : string) (ignore_date just_adj_close show_weekday double_date : bool)
        (w : World) :
  let w' := snd (get_index_history to_datetime to_numeric index_type s e ignore_date
                   just_adj_close show_weekday double_date w) in
  network w' = network w
  /\ (calls w <= calls w' <= calls w + (if just_adj_close then 4 else 8))%nat
  /\ (assoc (Py.map_chars upper_char index_type) _INDEX_WEB_IDS = None
      \/ (ignore_date = false /\ _validate_date_range s e <> inr tt) -> w' = w).
Proof.
  unfold get_index_history.
  destruct (assoc _ _) as [id|].
  2:{ cbn [snd]. split; [reflexivity|]. split; [destruct just_adj_close; lia | reflexivity]. }
  destruct (if negb ignore_date then _ else _) as [e0|[]] eqn:Hr.
  { cbn [snd]. split; [reflexivity|]. split; [destruct just_adj_close; lia | reflexivity]. }
  cbv zeta.
  assert (Hno : ~ (Some id = None
                   \/ (ignore_date = false /\ _validate_date_range s e <> inr tt))).
  { intros [H|[-> H]]; [discriminate|]. simpl in Hr. contradiction. }
  match goal with |- context [_make_request ?u w] =>
    pose proof (make_request_world u w) as (Hn & Hc & _);
    destruct (_make_request u w) as [[e0|r1] w1]
  end; cbn [fst snd] in *.
  { split; [assumption|]. split; [destruct just_adj_close; lia | intros H; now elim Hno]. }
  destruct (match json r1 with Some (IndexDoc (Some indexB2)) => _ | _ => _ end)
    as [e0|adj]; cbn [snd].
  { split; [assumption|]. split; [destruct just_adj_close; lia | intros H; now elim Hno]. }
  destruct just_adj_close; cbn [snd].
  { split; [assumption|]. split; [lia | intros H; now elim Hno]. }
  match goal with |- context [_make_request ?u w1] =>
    pose proof (make_request_world u w1) as (Hn2 & Hc2 & _);
    destruct (_make_request u w1) as [[e0|r2] w2]
  end; cbn [fst snd] in *;
    (split; [congruence|]; split; [lia | intros H; now elim Hno]).
Qed.

End IndexProperties.


Lemma index_errors_are_package_errors_witness :
  is_TSETMCError (TSETMCRateLimitError "Rate limit exceeded" None None) = true.
Proof.
  apply (index_errors_are_package_errors iso_to_datetime float_to_numeric "cwi"
           "1403-01-01" "1403-01-10" false false false false always_429).
  vm_compute. reflexivity.
Defined.

(** ** Sorting *)

Lemma datetime_leb_total (a b : Datetime.date) :
  Datetime.leb a b = false -> Datetime.leb b a = true.
Proof.
  unfold Datetime.leb. simpl.
  destruct (Datetime.year b <? Datetime.year a) eqn:E1,
           (Datetime.year a <? Datetime.year b) eqn:E2,
           (Datetime.month b <? Datetime.month a) eqn:E3,
           (Datetime.month a <? Datetime.month b) eqn:E4,
           (Datetime.day b <? Datetime.day a) eqn:E5,
           (Datetime.day a <? Datetime.day b) eqn:E6; simpl; trivial; try discriminate; lia.
Qed.

Lemma datetime_leb_trans (a b c : Datetime.date) :
  Datetime.leb a b = true -> Datetime.leb b c = true -> Datetime.leb a c = true.
Proof.
  unfold Datetime.leb. simpl.
  destruct (Datetime.year b <? Datetime.year a) eqn:E1; [discriminate|].
  destruct (Datetime.year c <? Datetime.year b) eqn:F1; [discriminate|].
  destruct (Datetime.year a <? Datetime.year b) eqn:E2.
  { replace (Datetime.year c <? Datetime.year a) with false by lia.
    replace (Datetime.year a <? Datetime.year c) with true by lia. reflexivity. }
  destruct (Datetime.year b <? Datetime.year c) eqn:F2.
  { replace (Datetime.year c <? Datetime.year a) with false by lia.
    replace (Datetime.year a <? Datetime.year c) with true by lia. reflexivity. }
  replace (Datetime.year c <? Datetime.year a) with false by lia.
  replace (Datetime.year a <? Datetime.year c) with false by lia.
  destruct (Datetime.month b <? Datetime.month a) eqn:E3; [discriminate|].
  destruct (Datetime.month c <? Datetime.month b) eqn:F3; [discriminate|].
  destruct (Datetime.month a <? Datetime.month b) eqn:E4.
  { replace (Datetime.month c <? Datetime.month a) with false by lia.
    replace (Datetime.month a <? Datetime.month c) with true by lia. reflexivity. }
  destruct (Datetime.month b <? Datetime.month c) eqn:F4.
  { replace (Datetime.month c <? Datetime.month a) with false by lia.
    replace (Datetime.month a <? Datetime.month c) with true by lia. reflexivity. }
  replace (Datetime.month c <? Datetime.month a) with false by lia.
  replace (Datetime.month a <? Datetime.month c) with false by lia.
  destruct (Datetime.day b <? Datetime.day a) eqn:E5; [discriminate|].
  destruct (Datetime.day c <? Datetime.day b) eqn:F5; [discriminate|].
  replace (Datetime.day c <? Datetime.day a) with false by lia.
  intros _ _. now destruct (Datetime.day a <? Datetime.day c).
Qed.

Section SortedProperties.

Context {A : Type}.
Variable le : A -> A -> bool.
Variable P : A -> Prop.
Hypothesis le_total : forall x y, P x -> P y -> le x y = false -> le y x = true.
Hypothesis le_trans :
  forall x y z, P x -> P y -> P z -> le x y = true -> le y z = true -> le x z = true.

Lemma insert_sorted_Forall (Q : A -> Prop) (x : A) (l : list A) :
  Q x -> Forall Q l -> Forall Q (insert_sorted le x l).
Proof.
  intros Hx Hl. induction Hl as [|y l Hy Hl IH]; simpl.
  - now constructor.
  - destruct (le x y); repeat constructor; trivial.
Qed.

Lemma sort_values_Forall (Q : A -> Prop) (l : list A) :
  Forall Q l -> Forall Q (sort_values le l).
Proof.
  induction 1 as [|x l Hx Hl IH]; simpl; [constructor|].
  now apply insert_sorted_Forall.
Qed.

Lemma insert_sorted_ascending (x : A) (l : list A) :
  P x -> Forall P l -> ascending le l = true -> ascending le (insert_sorted le x l) = true.
Proof.
  intros Hx Hl. induction Hl as [|y l Hy Hl IH]; simpl; [reflexivity|].
  intros H. apply andb_prop in H as [Hall Hasc].
  destruct (le x y) eqn:E; simpl.
  - rewrite E, Hall, Hasc. simpl. rewrite andb_true_r.
    apply forallb_forall. intros z Hz.
    rewrite forallb_forall in Hall. rewrite Forall_forall in Hl.
    apply (le_trans x y z); auto.
  - rewrite (IH Hasc), andb_true_r. apply forallb_forall. intros z Hz.
    apply insert_sorted_In in Hz as [->|Hz].
    + now apply le_total.
    + rewrite forallb_forall in Hall. now apply Hall.
Qed.

Lemma sort_values_ascending (l : list A) :
  Forall P l -> ascending le (sort_values le l) = true.
Proof.
  induction 1 as [|x l Hx Hl IH]; simpl; [reflexivity|].
  apply insert_sorted_ascending; trivial. now apply sort_values_Forall.
Qed.

End SortedProperties.

Lemma ascending_filter {A : Type} (le : A -> A -> bool) (f : A -> bool) (l : list A) :
  ascending le l = true -> ascending le (filter f l) = true.
Proof.
  induction l as [|x l IH]; simpl; [trivial|].
  intros H. apply andb_prop in H as [Hall Hasc].
  destruct (f x); simpl; [|now apply IH].
  rewrite (IH Hasc), andb_true_r. apply forallb_forall. intros z Hz.
  apply filter_In in Hz as [Hz _]. rewrite forallb_forall in Hall. now apply Hall.
Qed.

Lemma ascending_map {A B : Type} (le : A -> A -> bool) (le' : B -> B -> bool)
      (f : A -> B) (l : list A) :
  (forall x y, In x l -> In y l -> le x y = true -> le' (f x) (f y) = true) ->
  ascending le l = true -> ascending le' (map f l) = true.
Proof.
  induction l as [|x l IH]; simpl; [trivial|].
  intros Hf H. apply andb_prop in H as [Hall Hasc].
  rewrite IH; auto. rewrite andb_true_r.
  apply forallb_forall. intros z Hz. apply in_map_iff in Hz as (y & <- & Hy).
  rewrite forallb_forall in Hall. apply Hf; auto.
Qed.

Section IndexOrder.

Variable to_datetime : string -> result Datetime.date.
Variable to_numeric : string -> option Py.pyfloat.

Lemma index_frame_ascending
      (name s e : string) (just_adj_close ignore_date show_weekday : bool)
      (adj : list Index.adj_row) (ohlc : result (list Index.ohlc_row))
      (df : Index.DataFrame) :
  index_frame to_numeric name just_adj_close ignore_date show_weekday true s e adj ohlc
  = inr df ->
  (forall row, In row df -> Index.Date row <> None)
  /\ ascending date_not_after df = true.
Proof.
  unfold index_frame, bind, ret.
  destruct (if just_adj_close then _ else _) as [e0|frame] eqn:Hf; [discriminate|].
  cbv zeta.
  assert (Hdate : Forall (fun r => Index.Date r <> None) frame).
  { apply Forall_forall. intros r Hr. destruct just_adj_close.
    - injection Hf as <-. unfold adj_only_frame in Hr.
      apply in_map_iff in Hr as (a & <- & _). discriminate.
    - destruct ohlc as [e1|o]; [discriminate|]. injection Hf as <-.
      apply joined_frame_rows in Hr as (l & r' & _ & _ & _ & _ & Hd).
      rewrite Hd. discriminate. }
  set (sorted := sort_values row_date_le frame).
  assert (Hs : ascending row_date_le sorted = true /\ Forall (fun r => Index.Date r <> None) sorted).
  { split; [|now apply sort_values_Forall].
    apply (sort_values_ascending row_date_le (fun r => Index.Date r <> None)); trivial.
    - intros x y Hx Hy. unfold row_date_le.
      destruct (Index.Date x), (Index.Date y); try congruence. apply datetime_leb_total.
    - intros x y z Hx Hy Hz. unfold row_date_le.
      destruct (Index.Date x), (Index.Date y), (Index.Date z); try congruence.
      apply datetime_leb_trans. }
  set (kept := if negb ignore_date then filter _ sorted else sorted).
  assert (Hk : ascending row_date_le kept = true /\ Forall (fun r => Index.Date r <> None) kept).
  { destruct Hs as [Ha Hd]. unfold kept. destruct (negb ignore_date); [|now split].
    split; [now apply ascending_filter|].
    apply Forall_forall. intros r Hr. apply filter_In in Hr as [Hr _].
    rewrite Forall_forall in Hd. now apply Hd. }
  destruct kept as [|r0 rs] eqn:Hkept; [discriminate|].
  intros H; injection H as <-.
  change ((forall row,
             In row (filter (fun r => negb (all_missing r))
                            (map (format_row show_weekday true) (r0 :: rs))) ->
             Index.Date row <> None)
          /\ ascending date_not_after
               (filter (fun r => negb (all_missing r))
                       (map (format_row show_weekday true) (r0 :: rs))) = true).
  destruct Hk as [Ha Hd]. split.
  { intros row Hrow. apply filter_In in Hrow as [Hrow _].
    apply in_map_iff in Hrow as (r & <- & Hr). rewrite Forall_forall in Hd.
    exact (Hd r Hr). }
  apply ascending_filter.
  apply (ascending_map row_date_le); [|exact Ha].
  intros x y Hx Hy. rewrite Forall_forall in Hd.
  pose proof (Hd x Hx) as Dx. pose proof (Hd y Hy) as Dy.
  unfold row_date_le, date_not_after, format_row. simpl.
  destruct (Index.Date x), (Index.Date y); congruence.
Qed.

(** X25.  With [double_date] set, the rows of a table that
    [get_index_history] returns all carry a [Date] and come in ascending
    order of it. *)
Theorem index_rows_ascending
        (index_type s e : string) (ignore_date just_adj_close show_weekday : bool)
        (w w' : World) (df : Index.DataFrame) :
  get_index_history to_datetime to_numeric index_type s e ignore_date just_adj_close
    show_weekday true w = (inr df, w') ->
  (forall row, In row df -> Index.Date row <> None)
  /\ ascending date_not_after df = true.
Proof.
  intros H. destruct (index_success_inv _ _ _ _ _ _ _ _ _ _ _ _ H)
    as (name & adj & ohlc & Hf).
  now apply index_frame_ascending in Hf.
Qed.

End IndexOrder.

Lemma index_rows_ascending_witness : ascending date_not_after scenario_D_rows = true.
Proof.
  apply (index_rows_ascending iso_to_datetime float_to_numeric "CWI" "1403-01-01"
           "1403-01-10" false false false scenario_D
           (snd (get_index_history iso_to_datetime float_to_numeric "CWI" "1403-01-01"
                   "1403-01-10" false false false true scenario_D))).
  vm_compute. reflexivity.
Defined.

(** ** The cells of a day of trades *)

Lemma times_checked : check_times time_cell_ok = true.
Proof. vm_compute. reflexivity. Qed.

(** X26.  A trade that the feed times as the number [hhmmss] gets the
    [Time] cell [hh:mm:ss], two digits each: the padding restores the
    leading zeros of the morning hours. *)
Theorem time_cell_shape (hh mm ss : Z) :
  0 <= hh < 24 -> 0 <= mm < 60 -> 0 <= ss < 60 ->
  time_cell hh mm ss
  = (Py.format_0d 2 hh ++ ":" ++ Py.format_0d 2 mm ++ ":" ++ Py.format_0d 2 ss)%string.
Proof.
  intros Hh Hm Hs. pose proof times_checked as H. unfold check_times in H.
  rewrite forallb_forall in H.
  specialize (H hh (Z_range_In 0 24 hh ltac:(simpl; lia))).
  rewrite forallb_forall in H.
  specialize (H mm (Z_range_In 0 60 mm ltac:(simpl; lia))).
  rewrite forallb_forall in H.
  specialize (H ss (Z_range_In 0 60 ss ltac:(simpl; lia))).
  now apply String.eqb_eq in H.
Qed.

Lemma time_cell_shape_witness : time_cell 9 0 5 = "09:00:05".
Proof. apply (time_cell_shape 9 0 5); lia. Defined.

Lemma insert_sorted_In_rev {A : Type} (le : A -> A -> bool) (x y : A) (l : list A) :
  y = x \/ In y l -> In y (insert_sorted le x l).
Proof.
  induction l as [|z l IH]; simpl.
  - intros [->|[]]. now left.
  - destruct (le x z); simpl; intros [->|[->|H]]; auto.
Qed.

Lemma sort_values_In_rev {A : Type} (le : A -> A -> bool) (y : A) (l : list A) :
  In y l -> In y (sort_values le l).
Proof.
  induction l as [|x l IH]; simpl; [intros []|].
  intros [->|H]; apply insert_sorted_In_rev; auto.
Qed.

(** X27.  Every row of a day's frame stems from one element of the
    trade history that has both a volume and a price; it carries the day,
    these two values and the formatted time of the element.  Elements
    without a volume or a price give no row. *)
Theorem day_frame_rows (j_date : string) (elements : list trade_json) :
  (forall row, In row (day_frame j_date elements) ->
     exists t, In t elements
               /\ Trades.J_Date row = j_date
               /\ qTitTran t = Some (Trades.Volume row)
               /\ pTran t = Some (Trades.Price row)
               /\ Trades.Time row
                  = format_time (Py.pad_left 6 "0" (Py.str_of_int (hEven t))))
  /\ (forall t, In t elements -> qTitTran t <> None -> pTran t <> None ->
        exists row, In row (day_frame j_date elements)
                    /\ qTitTran t = Some (Trades.Volume row)
                    /\ pTran t = Some (Trades.Price row)).
Proof.
  unfold day_frame. split.
  - intros row Hrow. apply in_flat_map in Hrow as (t & Ht & Hrow).
    apply sort_values_In in Ht. exists t. split; [assumption|].
    destruct (qTitTran t) as [v|]; [|destruct Hrow].
    destruct (pTran t) as [p|]; [|destruct Hrow].
    destruct Hrow as [<-|[]]. repeat split.
  - intros t Ht Hv Hp.
    destruct (qTitTran t) as [v|] eqn:Ev; [|now elim Hv].
    destruct (pTran t) as [p|] eqn:Ep; [|now elim Hp].
    exists (Trades.mk_row j_date
              (format_time (Py.pad_left 6 "0" (Py.str_of_int (hEven t)))) v p).
    split; [|split; reflexivity].
    apply in_flat_map. exists t. split; [now apply sort_values_In_rev|].
    rewrite Ev, Ep. now left.
Qed.

(** ** The URL of an endpoint *)

Lemma startswith_cons (a b : ascii) (p s : string) :
  startswith (String a p) (String b s) = Ascii.eqb a b && startswith p s.
Proof. reflexivity. Qed.

Lemma lstrip_slash_head (s : string) : startswith "/" (lstrip_slash s) = false.
Proof.
  induction s as [|c s IH]; [reflexivity|].
  cbn [lstrip_slash]. destruct (Ascii.eqb c "/") eqn:E; [exact IH|].
  rewrite startswith_cons, Ascii.eqb_sym, E. reflexivity.
Qed.

Lemma string_app_assoc (a b c : string) : ((a ++ b) ++ c = a ++ (b ++ c))%string.
Proof. induction a as [|x a IH]; simpl; [reflexivity | now rewrite IH]. Qed.

Lemma string_app_nil_r (a : string) : (a ++ "" = a)%string.
Proof. induction a as [|x a IH]; simpl; [reflexivity | now rewrite IH]. Qed.

Lemma rev_onto_app (s acc : string) :
  Py.rev_onto s acc = (Py.rev_onto s "" ++ acc)%string.
Proof.
  revert acc. induction s as [|c s IH]; intros acc; simpl; [reflexivity|].
  rewrite IH, (IH (String c "")). now rewrite string_app_assoc.
Qed.

Lemma reverse_app (a b : string) :
  Py.reverse (a ++ b) = (Py.reverse b ++ Py.reverse a)%string.
Proof.
  unfold Py.reverse. induction a as [|c a IH]; simpl.
  - now rewrite string_app_nil_r.
  - rewrite rev_onto_app, IH, (rev_onto_app a (String c "")).
    now rewrite string_app_assoc.
Qed.

Lemma reverse_involutive (s : string) : Py.reverse (Py.reverse s) = s.
Proof.
  induction s as [|c s IH]; [reflexivity|].
  change (String c s) with (String c "" ++ s)%string at 1.
  rewrite reverse_app, reverse_app, IH. reflexivity.
Qed.

Lemma rstrip_slash_tail (s : string) : ends_with_slash (rstrip_slash s) = false.
Proof.
  unfold ends_with_slash, rstrip_slash. rewrite reverse_involutive.
  pose proof (lstrip_slash_head (Py.reverse s)) as H.
  destruct (lstrip_slash (Py.reverse s)) as [|c r]; [reflexivity|].
  rewrite startswith_cons in H. rewrite Ascii.eqb_sym.
  now destruct (Ascii.eqb "/" c).
Qed.

Lemma lstrip_slash_cons (s : string) :
  lstrip_slash (String "/" s) = lstrip_slash s.
Proof. reflexivity. Qed.

(** X28.  For an endpoint that does not start with [http], [_build_url]
    joins the stored base URL and the endpoint with exactly one slash: the
    stored base URL does not end with a slash, what follows the joining
    slash does not start with one, and a leading slash of the endpoint
    makes no difference.  An endpoint that starts with [http] is returned
    as it is. *)
Theorem build_url_single_slash (base_url endpoint : string) :
  (startswith "http" endpoint = true
   -> _build_url (stored_base_url base_url) endpoint = endpoint)
  /\ (startswith "http" endpoint = false ->
      exists rest,
        _build_url (stored_base_url base_url) endpoint
        = (stored_base_url base_url ++ "/" ++ rest)%string
        /\ ends_with_slash (stored_base_url base_url) = false
        /\ startswith "/" rest = false
        /\ _build_url (stored_base_url base_url) (String "/" endpoint)
           = _build_url (stored_base_url base_url) endpoint).
Proof.
  unfold _build_url. split; [intros ->; reflexivity|].
  intros H. rewrite H. exists (lstrip_slash endpoint).
  split; [reflexivity|]. split; [apply rstrip_slash_tail|].
  split; [apply lstrip_slash_head | reflexivity].
Qed.

(** ** The index type *)

Lemma upper_char_idempotent (c : ascii) : upper_char (upper_char c) = upper_char c.
Proof. destruct c as [[] [] [] [] [] [] [] []]; reflexivity. Qed.

Lemma upper_idempotent (s : string) :
  Py.map_chars upper_char (Py.map_chars upper_char s) = Py.map_chars upper_char s.
Proof.
  induction s as [|c s IH]; simpl; [reflexivity|].
  now rewrite upper_char_idempotent, IH.
Qed.

(** X29.  The index type is read without regard to case: for a known
    index (written in ASCII), [get_index_history] gives the same result,
    errors and messages included, as for its upper-case spelling. *)
Theorem index_type_case_insensitive
        (to_datetime : string -> result Datetime.date)
        (to_numeric : string -> option Py.pyfloat)
        (index_type s e : string)
        (ignore_date just_adj_close show_weekday double_date : bool) (w : World) :
  is_ascii_text index_type = true ->
  assoc (Py.map_chars upper_char index_type) _INDEX_WEB_IDS <> None ->
  get_index_history to_datetime to_numeric index_type s e ignore_date just_adj_close
    show_weekday double_date w
  = get_index_history to_datetime to_numeric (Py.map_chars upper_char index_type) s e
      ignore_date just_adj_close show_weekday double_date w.
Proof.
  intros _ Hknown. unfold get_index_history. rewrite upper_idempotent.
  destruct (assoc _ _) as [id|]; [reflexivity | now elim Hknown].
Qed.

Lemma index_type_case_insensitive_witness :
  get_index_history iso_to_datetime float_to_numeric "cwi" "1403-01-01" "1403-01-10"
    false false false true scenario_D
  = get_index_history iso_to_datetime float_to_numeric "CWI" "1403-01-01" "1403-01-10"
      false false false true scenario_D.
Proof.
  apply (index_type_case_insensitive iso_to_datetime float_to_numeric "cwi");
    [reflexivity | discriminate].
Defined.
